(** * SessionRMarkdown: render-job supervisor and output-resource server

    A shallow embedding of [src/cpp/session/modules/rmarkdown/SessionRMarkdown.cpp]
    and the properties of it that the specification states.

    The module's own code (the [RenderRmd] class, the [MathjaxFilter]
    substitution, [renderRmd], [terminateRenderRmd], [handleRmdOutputRequest])
    is embedded function by function.  Everything the module calls but does not
    define ([core::FilePath], [module_context], [http::util], the R session, the
    build and session configuration) is gathered in the class [Platform] and
    stays a parameter of every definition and theorem. *)

From stdpp Require Import gmap strings list fin_maps.
From Equations Require Import Equations.
From Equations.Prop Require Import Logic.
From Stdlib Require Import ZArith Ascii.

Local Open Scope Z_scope.
Local Open Scope nat_scope.

(** ** Exceptions

    Two library calls of the module can throw: [std::string::substr] (when the
    start position is beyond the end of the string) and json_spirit's
    [Value::get_str] (when the value is not a string). *)

Inductive Exn := std_out_of_range | json_runtime_error.

Inductive Result (A : Type) :=
| Ok (a : A)
| Throw (e : Exn).
Arguments Ok {A} a.
Arguments Throw {A} e.

#[global] Instance Result_ret : MRet Result := λ A a, Ok a.
#[global] Instance Result_bind : MBind Result := λ A B f r,
  match r with
  | Ok a => f a
  | Throw e => Throw e
  end.

(** ** [std::string] and [boost::algorithm] operations used by the module *)

Module StdString.

Fixpoint drop (n : nat) (s : string) : string :=
  match n, s with
  | 0, _ => s
  | S _, EmptyString => EmptyString
  | S n', String _ s' => drop n' s'
  end.

Fixpoint take (n : nat) (s : string) : string :=
  match n, s with
  | 0, _ => EmptyString
  | S _, EmptyString => EmptyString
  | S n', String a s' => String a (take n' s')
  end.

(** [s.substr(pos)]: throws [std::out_of_range] when [pos > s.size()]. *)
Definition substr (s : string) (pos : nat) : Result string :=
  if decide (pos ≤ String.length s) then Ok (drop pos s)
  else Throw std_out_of_range.

(** [s.substr(pos, n)]: at most [n] characters from [pos]. *)
Definition substr_n (s : string) (pos n : nat) : Result string :=
  if decide (pos ≤ String.length s) then Ok (take n (drop pos s))
  else Throw std_out_of_range.

(** [s.find(c, pos)]; [None] is [std::string::npos]. *)
Fixpoint find (s : string) (c : ascii) (pos : nat) : option nat :=
  match s with
  | EmptyString => None
  | String a s' =>
      match pos with
      | 0 => if decide (a = c) then Some 0 else S <$> find s' c 0
      | S p => S <$> find s' c p
      end
  end.

(** [boost::algorithm::starts_with(s, test)]. *)
Fixpoint starts_with (s test : string) : bool :=
  match test, s with
  | EmptyString, _ => true
  | String _ _, EmptyString => false
  | String b test', String a s' =>
      if decide (a = b) then starts_with s' test' else false
  end.

(** [boost::algorithm::trim]: [trim_right_if] followed by [trim_left_if],
    both with [is_space] in the classic locale. *)
Fixpoint trim_left (s : string) : string :=
  match s with
  | EmptyString => EmptyString
  | String a s' => if Ascii.is_space a then trim_left s' else s
  end.

Fixpoint trim_right (s : string) : string :=
  match s with
  | EmptyString => EmptyString
  | String a s' =>
      match trim_right s' with
      | EmptyString => if Ascii.is_space a then EmptyString
                       else String a EmptyString
      | t => String a t
      end
  end.

Definition trim (s : string) : string := trim_left (trim_right s).

(** [std::getline(stream, line)] on a string stream holding [inp]: the
    characters up to the first newline go to the line, the newline is
    dropped, the rest stays in the stream.  Extraction fails (the loop
    condition is false) exactly when the stream is exhausted. *)
Fixpoint split_line (inp : string) : string * string :=
  match inp with
  | EmptyString => (EmptyString, EmptyString)
  | String a inp' =>
      if decide (a = "010"%char) then (EmptyString, inp')
      else let '(l, r) := split_line inp' in (String a l, r)
  end.

Definition getline (inp : string) : option (string * string) :=
  match inp with
  | EmptyString => None
  | String _ _ => Some (split_line inp)
  end.

End StdString.

(** ** JSON values ([core::json], json_spirit) *)

#[warnings="-register-all"]
Inductive json_value :=
| Jnull
| Jbool (b : bool)
| Jint (n : Z)
| Jstr (s : string)
| Jobj (o : gmap string json_value).

(** [Value::get_str()] checks the type of the value and throws otherwise. *)
Definition get_str (v : json_value) : Result string :=
  match v with
  | Jstr s => Ok s
  | _ => Throw json_runtime_error
  end.

(** [obj[key]] read on a [json::Object] ([std::map::operator[]]): a missing
    key reads as the default-constructed (null) value. *)
Definition json_index (o : gmap string json_value) (key : string) : json_value :=
  default Jnull (o !! key).

(** ** [core::Error] *)

Inductive Error :=
| Success
| Failure (summary : string).

(** [if (error)]. *)
Definition is_error (e : Error) : bool :=
  match e with
  | Success => false
  | Failure _ => true
  end.

Definition summary (e : Error) : string :=
  match e with
  | Success => EmptyString
  | Failure m => m
  end.

(** ** Client events *)

Inductive ClientEventType :=
| kRmdRenderStarted
| kRmdRenderOutput
| kRmdRenderCompleted.

Record ClientEvent := mkClientEvent {
  event_type : ClientEventType;
  event_data : json_value;
}.

#[global] Instance ClientEventType_eq_dec : EqDecision ClientEventType.
Proof. solve_decision. Defined.

(** ** JSON-RPC and HTTP messages *)

Record JsonRpcRequest := mkJsonRpcRequest {
  params : list json_value;
}.

(** [http::status]: the one status code the module sets. *)
Inductive StatusCode := NotFound.

(** ** The platform: everything the module calls and does not define

    A function of the source that returns a [core::Error] and writes a result
    through a pointer is a pair here: the error, and the content of the
    out-parameter after the call. *)

Class Platform := {
  (** [core::FilePath] *)
  FilePath : Type;
  FilePath_new : FilePath;                       (* [FilePath()] *)
  FilePath_of : string → FilePath;               (* [FilePath(path)] *)
  exists_ : FilePath → bool;                     (* [exists()] *)
  parent : FilePath → FilePath;
  complete : FilePath → string → FilePath;
  childPath : FilePath → string → FilePath;
  absolutePath : FilePath → string;
  filename : FilePath → string;
  extensionLowerCase : FilePath → string;
  (** [session::module_context] *)
  createAliasedPath : FilePath → string;
  resolveAliasedPath : string → FilePath;
  rScriptPath : Error * FilePath;
  previousRpubsUploadId : FilePath → string;
  kCompileOutputNormal : Z;
  kCompileOutputError : Z;
  compileOutputAsJson : Z → string → json_value;
  (** [processSupervisor().runProgram]: the error it returns for a launch *)
  runProgram_error : string → list string → Error;
  (** [core::http::util] and the request type *)
  Request : Type;
  pathAfterPrefix : Request → string → string;
  urlEncode : string → bool → string;
  urlDecode : string → string;
  (** [core::json] *)
  readParams : list json_value → Error * (string * Z * string);
  (** The R session *)
  SEXP : Type;
  default_output_format : string → string → Error * SEXP;
  getNamedListElement : SEXP → string → Error * string;
  getNamedListSEXP : SEXP → string → Error * SEXP;
  jsonValueFromList : SEXP → Error * json_value;
  system_file_mathjax : Error * string;          (* [system.file("rmd/h/m", package="rmarkdown")] *)
  (** [rmarkdown::presentation] *)
  ammendResults :
    string → FilePath → Z → gmap string json_value → gmap string json_value;
  (** Build and session configuration *)
  WIN32 : bool;                                  (* [#ifdef WIN32] *)
  APPLE : bool;                                  (* [#ifdef __APPLE__] *)
  programMode : string;                          (* [session::options().programMode()] *)
  kSessionProgramModeDesktop : string;
  kQtMathJaxConfigScript : string;
}.

(** ** Constants of the module *)

Definition kRmdOutput : string := "rmd_output".
Definition kRmdOutputLocation : string := "/" +:+ kRmdOutput +:+ "/".
Definition kMathjaxSegment : string := "mathjax".
Definition kMathjaxBeginComment : string := "<!-- dynamically load mathjax".

(** [sizeof(kMathjaxSegment)]: the size of the character array, which counts
    the terminating NUL. *)
Definition sizeof_kMathjaxSegment : nat := String.length kMathjaxSegment + 1.

(** ** The render job: class [RenderRmd] *)

Section RenderJob.
Context `{Platform}.

Record RenderRmd := mkRenderRmd {
  isRunning_ : bool;
  terminationRequested_ : bool;
  targetFile_ : FilePath;
  sourceLine_ : Z;
  outputFile_ : FilePath;
  encoding_ : string;
  outputFormat_ : gmap string json_value;
}.

Definition set_isRunning_ (b : bool) (r : RenderRmd) : RenderRmd :=
  mkRenderRmd b (terminationRequested_ r) (targetFile_ r) (sourceLine_ r)
              (outputFile_ r) (encoding_ r) (outputFormat_ r).
Definition set_terminationRequested_ (b : bool) (r : RenderRmd) : RenderRmd :=
  mkRenderRmd (isRunning_ r) b (targetFile_ r) (sourceLine_ r)
              (outputFile_ r) (encoding_ r) (outputFormat_ r).
Definition set_outputFile_ (f : FilePath) (r : RenderRmd) : RenderRmd :=
  mkRenderRmd (isRunning_ r) (terminationRequested_ r) (targetFile_ r)
              (sourceLine_ r) f (encoding_ r) (outputFormat_ r).
Definition set_encoding_ (e : string) (r : RenderRmd) : RenderRmd :=
  mkRenderRmd (isRunning_ r) (terminationRequested_ r) (targetFile_ r)
              (sourceLine_ r) (outputFile_ r) e (outputFormat_ r).
Definition set_outputFormat_ (o : gmap string json_value) (r : RenderRmd)
  : RenderRmd :=
  mkRenderRmd (isRunning_ r) (terminationRequested_ r) (targetFile_ r)
              (sourceLine_ r) (outputFile_ r) (encoding_ r) o.

(** A program handed to the process supervisor by [runProgram], with the
    state bound into its callbacks: the job ([shared_from_this()]), the
    encoding, and the shared output buffer [pAllOutput]. *)
Record Process := mkProcess {
  executable : string;
  args : list string;
  terminateChildren : bool;
  workingDir : FilePath;
  cb_this : nat;
  cb_encoding : string;
  pAllOutput : string;
}.

Definition set_pAllOutput (o : string) (p : Process) : Process :=
  mkProcess (executable p) (args p) (terminateChildren p) (workingDir p)
            (cb_this p) (cb_encoding p) o.

(** What a member function of a job works on: the address of the object
    ([self], for [shared_from_this]), its fields ([this]), the client event
    queue and the programs launched so far. *)
Record Ctx := mkCtx {
  self : nat;
  this : RenderRmd;
  clientEvents : list ClientEvent;
  launched : list Process;
}.

(** Member functions run in a state monad over [Ctx] that can throw. *)
Definition M (A : Type) : Type := Ctx → Result (A * Ctx).

#[global] Instance M_ret : MRet M := λ A a c, Ok (a, c).
#[global] Instance M_bind : MBind M := λ A B f m c,
  match m c with
  | Ok (a, c') => f a c'
  | Throw e => Throw e
  end.

Definition get_this : M RenderRmd := λ c, Ok (this c, c).
Definition get_self : M nat := λ c, Ok (self c, c).
Definition modify_this (f : RenderRmd → RenderRmd) : M unit := λ c,
  Ok ((), mkCtx (self c) (f (this c)) (clientEvents c) (launched c)).
Definition lift {A} (r : Result A) : M A := λ c,
  match r with
  | Ok a => Ok (a, c)
  | Throw e => Throw e
  end.

(** [module_context::enqueClientEvent]. *)
Definition enqueClientEvent (e : ClientEvent) : M unit := λ c,
  Ok ((), mkCtx (self c) (this c) (clientEvents c ++ [e]) (launched c)).

(** [processSupervisor().runProgram(exe, args, options, cb)]: on success the
    supervisor keeps the program and its callbacks; the error is returned. *)
Definition runProgram (p : Process) : M Error := λ c,
  let error := runProgram_error (executable p) (args p) in
  if is_error error then Ok (error, c)
  else Ok (error, mkCtx (self c) (this c) (clientEvents c) (launched c ++ [p])).

(** [RenderRmd(targetFile, sourceLine)] *)
Definition RenderRmd_new (targetFile : FilePath) (sourceLine : Z) : RenderRmd :=
  {| isRunning_ := false;
     terminationRequested_ := false;
     targetFile_ := targetFile;
     sourceLine_ := sourceLine;
     outputFile_ := FilePath_new;
     encoding_ := EmptyString;
     outputFormat_ := ∅ |}.

(** [terminate()] (the public one): request termination. *)
Definition terminate_request : M unit :=
  modify_this (set_terminationRequested_ true).

Definition isRunning (r : RenderRmd) : bool := isRunning_ r.

Definition outputFile (r : RenderRmd) : FilePath := outputFile_ r.

Definition hasOutput (r : RenderRmd) : bool :=
  negb (isRunning_ r) && exists_ (outputFile_ r).

(** [getOutputFormat(path, encoding, pResultJson)] *)
Definition getOutputFormat (path encoding : string)
    (resultJson : gmap string json_value) : gmap string json_value :=
  let '(error, sexpOutputFormat) := default_output_format path encoding in
  if is_error error then
    <["format_options" := Jnull]> (<["format_name" := Jstr EmptyString]> resultJson)
  else
    let '(_, formatName) := getNamedListElement sexpOutputFormat "name" in
    let resultJson := <["format_name" := Jstr formatName]> resultJson in
    let '(error, sexpOptions) := getNamedListSEXP sexpOutputFormat "options" in
    let formatOptions :=
      if is_error error then Jnull
      else (jsonValueFromList sexpOptions).2 in
    <["format_options" := formatOptions]> resultJson.

(** [enqueRenderOutput(type, output)] *)
Definition enqueRenderOutput (type : Z) (output : string) : M unit :=
  enqueClientEvent
    (mkClientEvent kRmdRenderOutput (compileOutputAsJson type output)).

(** [terminate(bool succeeded)] *)
Definition terminate (succeeded : bool) : M unit :=
  modify_this (set_isRunning_ false);;
  r ← get_this;
  let resultJson : gmap string json_value := ∅ in
  let resultJson := <["succeeded" := Jbool succeeded]> resultJson in
  let resultJson :=
    <["target_file" := Jstr (createAliasedPath (targetFile_ r))]> resultJson in
  let outputFile := createAliasedPath (outputFile_ r) in
  let resultJson := <["output_file" := Jstr outputFile]> resultJson in
  let outputUrl := kRmdOutput +:+ "/" in
  let encodedOutputFile := urlEncode (urlEncode outputFile false) false in
  let encodedOutputFile :=
    if WIN32 then urlEncode encodedOutputFile false else encodedOutputFile in
  let outputUrl := outputUrl +:+ encodedOutputFile in
  let outputUrl := outputUrl +:+ "/" in
  let resultJson := <["output_url" := Jstr outputUrl]> resultJson in
  let resultJson := <["output_format" := Jobj (outputFormat_ r)]> resultJson in
  let resultJson := <["preview_slide" := Jint (-1)]> resultJson in
  let resultJson := <["slide_navigation" := Jnull]> resultJson in
  let resultJson :=
    if decide (extensionLowerCase (outputFile_ r) = ".html") then
      <["rpubs_published" :=
          Jbool (negb (bool_decide (previousRpubsUploadId (outputFile_ r) = EmptyString)))]>
        resultJson
    else <["rpubs_published" := Jbool false]> resultJson in
  formatName ← lift (get_str (json_index (outputFormat_ r) "format_name"));
  let resultJson :=
    ammendResults formatName (targetFile_ r) (sourceLine_ r) resultJson in
  enqueClientEvent (mkClientEvent kRmdRenderCompleted (Jobj resultJson)).

(** [terminateWithError(const std::string& message)] *)
Definition terminateWithError_message (message : string) : M unit :=
  enqueRenderOutput kCompileOutputError message;;
  terminate false.

(** [terminateWithError(const Error& error)] *)
Definition terminateWithError (error : Error) : M unit :=
  r ← get_this;
  let message :=
    "Error rendering R Markdown for " +:+
    createAliasedPath (targetFile_ r) +:+ " " +:+
    summary error in
  terminateWithError_message message.

(** [performRender(encoding)] *)
Definition performRender (encoding : string) : M unit :=
  modify_this (set_encoding_ encoding);;
  let '(error, rProgramPath) := rScriptPath in
  if is_error error then terminateWithError error
  else
    let args := ["--slave"; "--no-save"; "--no-restore"; "-e"] in
    r ← get_this;
    let cmd :=
      "rmarkdown::render('" +:+ filename (targetFile_ r) +:+
      "', encoding='" +:+ encoding +:+ "');" in
    let args := args ++ [cmd] in
    pThis ← get_self;
    runProgram {| executable := absolutePath rProgramPath;
                  args := args;
                  terminateChildren := true;
                  workingDir := parent (targetFile_ r);
                  cb_this := pThis;
                  cb_encoding := encoding;
                  pAllOutput := EmptyString |};;
    mret ().

(** [start(encoding)] *)
Definition start (encoding : string) : M unit :=
  r ← get_this;
  modify_this
    (set_outputFormat_
       (getOutputFormat (absolutePath (targetFile_ r)) encoding
                        (outputFormat_ r)));;
  r ← get_this;
  let dataJson : gmap string json_value := ∅ in
  let dataJson := <["output_format" := Jobj (outputFormat_ r)]> dataJson in
  let dataJson :=
    <["target_file" := Jstr (createAliasedPath (targetFile_ r))]> dataJson in
  enqueClientEvent (mkClientEvent kRmdRenderStarted (Jobj dataJson));;
  modify_this (set_isRunning_ true);;
  performRender encoding.

(** [onRenderContinue()] *)
Definition onRenderContinue : M bool :=
  r ← get_this;
  mret (negb (terminationRequested_ r)).

(** [onRenderOutput(type, output, pAllOutput)]; the result is the content
    of the shared buffer afterwards. *)
Definition onRenderOutput (type : Z) (output : string) (allOutput : string)
  : M string :=
  let allOutput := allOutput +:+ output in
  enqueRenderOutput type output;;
  mret allOutput.

Definition completeMarker : string := "Output created: ".

(** The [while (std::getline(outputStream, renderLine))] loop of
    [onRenderCompleted]. *)
Equations? scanOutput (outputStream : string) : M unit
  by wf (String.length outputStream) lt :=
  scanOutput outputStream with inspect (StdString.getline outputStream) := {
    | exist _ None _ => mret ()
    | exist _ (Some (renderLine, rest)) Hline =>
        if StdString.starts_with renderLine completeMarker then
          fileName ←
            lift (StdString.substr renderLine (String.length completeMarker));
          let fileName := StdString.trim fileName in
          r ← get_this;
          modify_this
            (set_outputFile_ (complete (parent (targetFile_ r)) fileName))
        else scanOutput rest }.
Proof.
  clear scanOutput.
  assert (∀ s, String.length (StdString.split_line s).2 ≤ String.length s)
    as Hrest.
  { induction s as [|a s IH]; simpl; [lia|].
    case_decide; simpl; [lia|].
    destruct (StdString.split_line s); simpl in *; lia. }
  destruct outputStream as [|a outputStream]; [done|].
  injection Hline as Hline. simpl in Hline.
  pose proof (Hrest outputStream) as Hle.
  destruct (decide (a = "010"%char)).
  - injection Hline as <- <-. simpl. lia.
  - destruct (StdString.split_line outputStream) as [l r].
    injection Hline as <- <-. simpl in *. lia.
Qed.

(** [onRenderCompleted(exitStatus, encoding, pAllOutput)] *)
Definition onRenderCompleted (exitStatus : Z) (encoding : string)
    (allOutput : string) : M unit :=
  scanOutput allOutput;;
  r ← get_this;
  terminate (bool_decide (exitStatus = 0%Z) && exists_ (outputFile_ r)).

(** [create(targetFile, sourceLine, encoding)], for an object allocated at
    address [p]. *)
Definition create_at (p : nat) (targetFile : FilePath) (sourceLine : Z)
    (encoding : string) (events : list ClientEvent)
  : Result (unit * Ctx) :=
  start encoding (mkCtx p (RenderRmd_new targetFile sourceLine) events []).

End RenderJob.

(** ** The content rewriter: class [MathjaxFilter] *)

Definition dquote : string := String "034"%char EmptyString.
Definition newline : string := String "010"%char EmptyString.

(** A [boost::cmatch] of the filter's regular expression: the whole match
    [match[0]] and the two capture groups of the [script src] alternative,
    [match[1]] (the text up to the opening quote) and [match[2]] (from
    [MathJax.js] up to the closing quote).  A group that did not take part in
    the match compares as the empty string. *)
Record cmatch := mkMatch {
  m0 : string;
  m1 : string;
  m2 : string;
}.

Record MathjaxFilter := mkMathjaxFilter {
  hasMathjax_ : bool;
}.

(** [MathjaxFilter()] *)
Definition MathjaxFilter_new : MathjaxFilter := {| hasMathjax_ := false |}.

Section ContentRewriter.
Context `{Platform}.

(** [substitute(match)]: the replacement text and the filter afterwards. *)
Definition substitute (m : cmatch) (f : MathjaxFilter)
  : string * MathjaxFilter :=
  if decide (m0 m = "\[" ∨ m0 m = "\(" ∨ m0 m = "<math") then
    (m0 m, {| hasMathjax_ := true |})
  else if decide (m0 m = kMathjaxBeginComment) then
    if APPLE then (m0 m, f)
    else if decide (programMode ≠ kSessionProgramModeDesktop) then (m0 m, f)
    else (kQtMathJaxConfigScript +:+ newline +:+ m0 m, f)
  else if hasMathjax_ f then
    (m1 m +:+ dquote +:+ kMathjaxSegment +:+ "/" +:+ m2 m +:+ dquote, f)
  else
    (EmptyString, f).

(** [boost::iostreams::regex_filter::do_filter]: the regex iterator yields
    the matches from left to right, each with the unmatched text before it
    ([prefix()]); the filter copies that text, then the replacement of the
    match; the text after the last match ([suffix()]) is copied at the end. *)
Fixpoint replace_matches (ms : list (string * cmatch)) (f : MathjaxFilter)
  : string * MathjaxFilter :=
  match ms with
  | [] => (EmptyString, f)
  | (prefix, m) :: ms' =>
      let '(replacement, f) := substitute m f in
      let '(dest, f) := replace_matches ms' f in
      (prefix +:+ replacement +:+ dest, f)
  end.

Definition do_filter (ms : list (string * cmatch)) (suffix : string)
    (f : MathjaxFilter) : string * MathjaxFilter :=
  let '(dest, f) := replace_matches ms f in
  (dest +:+ suffix, f).

End ContentRewriter.

(** The document the matches were found in. *)
Fixpoint source_text (ms : list (string * cmatch)) (suffix : string) : string :=
  match ms with
  | [] => suffix
  | (prefix, m) :: ms' => prefix +:+ m0 m +:+ source_text ms' suffix
  end.

(** ** The output-resource server: [handleRmdOutputRequest] *)

Section ResourceServer.
Context `{Platform}.

(** The calls made on [pResponse]. *)
Inductive ResponseCall :=
| setError (status : StatusCode) (message : string)
| setNoCacheHeaders
| setFile (filePath : FilePath) (filter : MathjaxFilter)
| setCacheableFile (filePath : FilePath).

(** [mathJaxDirectory()] *)
Definition mathJaxDirectory : FilePath :=
  let '(error, path) := system_file_mathjax in
  if is_error error then FilePath_new else FilePath_of path.

(** [handleRmdOutputRequest(request, pResponse)] *)
Definition handleRmdOutputRequest (request : Request)
  : Result (list ResponseCall) :=
  let path := pathAfterPrefix request kRmdOutputLocation in
  match StdString.find path "/" 1 with
  | None => Ok [setError NotFound "No output file found"]
  | Some pos =>
      segment ← StdString.substr_n path 0 pos;
      let outputFile := urlDecode segment in
      let outputFilePath := resolveAliasedPath outputFile in
      if negb (exists_ outputFilePath) then
        Ok [setError NotFound (outputFile +:+ " not found")]
      else
        path ← StdString.substr_n path (pos + 1) (String.length path);
        if decide (path = EmptyString) then
          Ok [setNoCacheHeaders; setFile outputFilePath MathjaxFilter_new]
        else if StdString.starts_with path kMathjaxSegment then
          resource ← StdString.substr path sizeof_kMathjaxSegment;
          Ok [setCacheableFile (complete mathJaxDirectory resource)]
        else
          Ok [setCacheableFile (childPath (parent outputFilePath) path)]
  end.

End ResourceServer.

(** ** The render supervisor: [s_pCurrentRender_] and the RPC methods *)

Section Supervisor.
Context `{Platform}.

(** The state of the session that the module reads and writes: the
    [RenderRmd] objects alive behind [shared_ptr]s, by address; the global
    [s_pCurrentRender_]; the client event queue; the programs held by the
    process supervisor. *)
Record Session := mkSession {
  objects : gmap nat RenderRmd;
  s_pCurrentRender_ : option nat;
  eventQueue : list ClientEvent;
  processes : list Process;
}.

(** Store back what a member function left in its context. *)
Definition commit (s : Session) (slot : option nat) (c : Ctx) : Session :=
  {| objects := <[self c := this c]> (objects s);
     s_pCurrentRender_ := slot;
     eventQueue := clientEvents c;
     processes := processes s ++ launched c |}.

(** [isRenderRunning()] *)
Definition isRenderRunning (s : Session) : bool :=
  match s_pCurrentRender_ s with
  | None => false
  | Some p =>
      match objects s !! p with
      | Some r => isRunning r
      | None => false
      end
  end.

(** [renderRmd(request, pResponse)]: the error returned, the result set on
    the response (if any), and the session afterwards. *)
Definition renderRmd (request : JsonRpcRequest) (s : Session)
  : Result (Error * option json_value * Session) :=
  let '(error, (file, line, encoding)) := readParams (params request) in
  if is_error error then Ok (error, None, s)
  else if isRenderRunning s then Ok (Success, Some (Jbool false), s)
  else
    let p := fresh (dom (objects s)) in
    '(_, c) ← create_at p (resolveAliasedPath file) line encoding
                        (eventQueue s);
    Ok (Success, Some (Jbool true), commit s (Some p) c).

(** [terminateRenderRmd(request, pResponse)] *)
Definition terminateRenderRmd (s : Session) : Result (Error * Session) :=
  if isRenderRunning s then
    match s_pCurrentRender_ s with
    | Some p =>
        match objects s !! p with
        | Some r =>
            '(_, c) ← terminate_request (mkCtx p r (eventQueue s) []);
            Ok (Success, commit s (s_pCurrentRender_ s) c)
        | None => Ok (Success, s)
        end
    | None => Ok (Success, s)
    end
  else Ok (Success, s).

(** The callbacks [performRender] binds, as the process supervisor invokes
    them for the program at index [i]. *)
Inductive ProcessCallback :=
| cb_onContinue
| cb_onStdout (output : string)
| cb_onStderr (output : string)
| cb_onExit (exitStatus : Z).

Definition set_process (i : nat) (p : Process) (s : Session) : Session :=
  {| objects := objects s;
     s_pCurrentRender_ := s_pCurrentRender_ s;
     eventQueue := eventQueue s;
     processes := <[i := p]> (processes s) |}.

Definition remove_process (i : nat) (s : Session) : Session :=
  {| objects := objects s;
     s_pCurrentRender_ := s_pCurrentRender_ s;
     eventQueue := eventQueue s;
     processes := delete i (processes s) |}.

(** The answer is [None] when there is no program [i] or no object behind
    its callbacks; otherwise what [onContinue] returned ([true] for the
    other callbacks) and the session afterwards. *)
Definition deliver (i : nat) (cb : ProcessCallback) (s : Session)
  : option (Result (bool * Session)) :=
  pr ← processes s !! i;
  r ← objects s !! cb_this pr;
  let c := mkCtx (cb_this pr) r (eventQueue s) [] in
  Some
    match cb with
    | cb_onContinue =>
        '(b, c) ← onRenderContinue c;
        Ok (b, commit s (s_pCurrentRender_ s) c)
    | cb_onStdout output =>
        '(all, c) ← onRenderOutput kCompileOutputNormal output (pAllOutput pr) c;
        Ok (true, set_process i (set_pAllOutput all pr)
                    (commit s (s_pCurrentRender_ s) c))
    | cb_onStderr output =>
        '(all, c) ← onRenderOutput kCompileOutputError output (pAllOutput pr) c;
        Ok (true, set_process i (set_pAllOutput all pr)
                    (commit s (s_pCurrentRender_ s) c))
    | cb_onExit exitStatus =>
        '(_, c) ← onRenderCompleted exitStatus (cb_encoding pr) (pAllOutput pr) c;
        Ok (true, remove_process i (commit s (s_pCurrentRender_ s) c))
    end.

(** The session when the module is loaded. *)
Definition initial_session : Session :=
  {| objects := ∅; s_pCurrentRender_ := None;
     eventQueue := []; processes := [] |}.

End Supervisor.

(** ** Vocabulary of the specification

    The definitions below are not taken from the source: they say, in the
    specification's terms, what the theorems compare the code with. *)

(** The lines of a captured output, newline-separated; a last line need not
    end in a newline. *)
Fixpoint lines (s : string) : list string :=
  match s with
  | EmptyString => []
  | String a s' =>
      if decide (a = "010"%char) then EmptyString :: lines s'
      else match lines s' with
           | [] => [String a EmptyString]
           | l :: ls => String a l :: ls
           end
  end.

Fixpoint concat_strings (l : list string) : string :=
  match l with
  | [] => EmptyString
  | s :: l' => s +:+ concat_strings l'
  end.

(** No ['/'] at or after offset [from]. *)
Definition no_slash_from (from : nat) (path : string) : Prop :=
  ∀ i, from ≤ i → String.get i path ≠ Some "/"%char.

(** The regular expression has five alternatives: the three math start
    tokens, the configuration comment, and the [script src] line.  A match is
    told apart by its text. *)
Definition is_math_token (m : cmatch) : bool :=
  bool_decide (m0 m = "\[" ∨ m0 m = "\(" ∨ m0 m = "<math").

Definition is_config_marker (m : cmatch) : bool :=
  bool_decide (m0 m = kMathjaxBeginComment).

(** A math start token occurs among the matches before the [i]-th one. *)
Definition math_seen_before (i : nat) (ms : list (string * cmatch)) : bool :=
  existsb (λ pm, is_math_token pm.2) (take i ms).

(** The [script src] line routed through the reserved segment. *)
Definition script_rewritten (m : cmatch) : string :=
  m1 m +:+ dquote +:+ "mathjax/" +:+ m2 m +:+ dquote.

(** The text a rewriter puts out for a document, when [emit seen m] is what
    it puts out for the match [m], [seen] telling whether a math start token
    came before: the text between the matches is copied. *)
Definition piece (emit : bool → cmatch → string)
    (ms : list (string * cmatch)) (i : nat) : string :=
  match ms !! i with
  | Some (prefix, m) => prefix +:+ emit (math_seen_before i ms) m
  | None => EmptyString
  end.

Definition rewritten_text (emit : bool → cmatch → string)
    (ms : list (string * cmatch)) (suffix : string) : string :=
  concat_strings (piece emit ms <$> seq 0 (length ms)) +:+ suffix.

(** The loader line is dropped or rerouted; every other match is put out as
    it is. *)
Definition emitted_unchanged_but_script (seen : bool) (m : cmatch) : string :=
  if is_math_token m || is_config_marker m then m0 m
  else if seen then script_rewritten m
  else EmptyString.

Section Statements.
Context `{Platform}.

(** A line that starts with the completion marker, and the first such line
    of a captured output. *)
Definition marked (line : string) : bool :=
  StdString.starts_with line completeMarker.

Definition marker_line (allOutput : string) : option string :=
  List.find marked (lines allOutput).

(** The file a marker line names, for a job rendering [targetFile]. *)
Definition named_file (targetFile : FilePath) (line : string) : FilePath :=
  complete (parent targetFile)
    (StdString.trim (StdString.drop (String.length completeMarker) line)).

(** The same with whitespace trimmed at the end of the name only. *)
Definition named_file_trimmed_right (targetFile : FilePath) (line : string)
  : FilePath :=
  complete (parent targetFile)
    (StdString.trim_right
       (StdString.drop (String.length completeMarker) line)).

(** The job has been through [start]: its format name is there. *)
Definition started (r : RenderRmd) : Prop :=
  ∃ formatName, outputFormat_ r !! "format_name" = Some (Jstr formatName).

(** The presentation add-on leaves a field of the result alone. *)
Definition ammendResults_keeps (key : string) : Prop :=
  ∀ formatName targetFile sourceLine resultJson,
    ammendResults formatName targetFile sourceLine resultJson !! key
    = resultJson !! key.

Definition completed_event (resultJson : gmap string json_value)
  : ClientEvent :=
  mkClientEvent kRmdRenderCompleted (Jobj resultJson).

(** The aliased path, URL-encoded [n] times. *)
Fixpoint encoded (n : nat) (path : string) : string :=
  match n with
  | 0 => path
  | S n' => urlEncode (encoded n' path) false
  end.

Definition outputUrl_of (passes : nat) (r : RenderRmd) : string :=
  kRmdOutput +:+ "/" +:+
  encoded passes (createAliasedPath (outputFile_ r)) +:+ "/".

(** What [start] has done to the job when it reaches the launch. *)
Definition job_at_launch (encoding : string) (r : RenderRmd) : RenderRmd :=
  set_encoding_ encoding
    (set_isRunning_ true
       (set_outputFormat_
          (getOutputFormat (absolutePath (targetFile_ r)) encoding
                           (outputFormat_ r)) r)).

(** The event [start] queues first. *)
Definition started_event (r : RenderRmd) : ClientEvent :=
  mkClientEvent kRmdRenderStarted
    (Jobj (<["target_file" := Jstr (createAliasedPath (targetFile_ r))]>
             (<["output_format" := Jobj (outputFormat_ r)]> ∅))).

(** The event that reports a launch error for a target file. *)
Definition launch_error_event (targetFile : FilePath) (error : Error)
  : ClientEvent :=
  mkClientEvent kRmdRenderOutput
    (compileOutputAsJson kCompileOutputError
       ("Error rendering R Markdown for " +:+
        createAliasedPath targetFile +:+ " " +:+ summary error)).

(** The program [performRender] hands to the process supervisor. *)
Definition render_process (encoding : string) (c : Ctx) : Process :=
  {| executable := absolutePath rScriptPath.2;
     args := ["--slave"; "--no-save"; "--no-restore"; "-e";
              "rmarkdown::render('" +:+ filename (targetFile_ (this c)) +:+
              "', encoding='" +:+ encoding +:+ "');"];
     terminateChildren := true;
     workingDir := parent (targetFile_ (this c));
     cb_this := self c;
     cb_encoding := encoding;
     pAllOutput := EmptyString |}.

(** [outputFile] is set exactly when the exit code is zero, a marker line
    was found and the file it names exists. *)
Definition outputFile_set_iff_succeeded (c : Ctx) (exitStatus : Z)
    (encoding allOutput : string) : Prop :=
  ∀ c', onRenderCompleted exitStatus encoding allOutput c = Ok ((), c') →
    outputFile_ (this c') ≠ FilePath_new ↔
    exitStatus = 0%Z ∧
    ∃ line, marker_line allOutput = Some line ∧
            exists_ (named_file (targetFile_ (this c)) line) = true.

(** The completion event carries the output URL with the path encoded
    exactly twice. *)
Definition outputUrl_encoded_twice (c : Ctx) (succeeded : bool) : Prop :=
  ∀ c' resultJson,
    terminate succeeded c = Ok ((), c') →
    last (clientEvents c') = Some (completed_event resultJson) →
    resultJson !! "output_url" = Some (Jstr (outputUrl_of 2 (this c))).

(** A document comes out of the rewriter with the loader line dropped or
    rerouted and nothing else changed. *)
Definition only_script_line_changed (ms : list (string * cmatch))
    (suffix : string) : Prop :=
  (do_filter ms suffix MathjaxFilter_new).1
  = rewritten_text emitted_unchanged_but_script ms suffix.

(** What the rewriter puts out for a match: as
    [emitted_unchanged_but_script], except that the configuration script and
    a newline go in before the configuration comment when the session runs in
    desktop mode on a build that is not for Apple. *)
Definition emitted (seen : bool) (m : cmatch) : string :=
  if is_math_token m then m0 m
  else if is_config_marker m then
    (if negb APPLE && bool_decide (programMode = kSessionProgramModeDesktop)
     then kQtMathJaxConfigScript +:+ newline else EmptyString) +:+ m0 m
  else if seen then script_rewritten m
  else EmptyString.

(** The platform with another URL decoder, alias resolution and disk. *)
Definition with_decoder_and_disk (decoder : string → string)
    (resolver : string → FilePath) (disk : FilePath → bool) : Platform :=
  {| FilePath := FilePath;
     FilePath_new := FilePath_new;
     FilePath_of := FilePath_of;
     exists_ := disk;
     parent := parent;
     complete := complete;
     childPath := childPath;
     absolutePath := absolutePath;
     filename := filename;
     extensionLowerCase := extensionLowerCase;
     createAliasedPath := createAliasedPath;
     resolveAliasedPath := resolver;
     rScriptPath := rScriptPath;
     previousRpubsUploadId := previousRpubsUploadId;
     kCompileOutputNormal := kCompileOutputNormal;
     kCompileOutputError := kCompileOutputError;
     compileOutputAsJson := compileOutputAsJson;
     runProgram_error := runProgram_error;
     Request := Request;
     pathAfterPrefix := pathAfterPrefix;
     urlEncode := urlEncode;
     urlDecode := decoder;
     readParams := readParams;
     SEXP := SEXP;
     default_output_format := default_output_format;
     getNamedListElement := getNamedListElement;
     getNamedListSEXP := getNamedListSEXP;
     jsonValueFromList := jsonValueFromList;
     system_file_mathjax := system_file_mathjax;
     ammendResults := ammendResults;
     WIN32 := WIN32;
     APPLE := APPLE;
     programMode := programMode;
     kSessionProgramModeDesktop := kSessionProgramModeDesktop;
     kQtMathJaxConfigScript := kQtMathJaxConfigScript |}.

End Statements.

(** ** A concrete platform

    To run the model on examples the parameters have to be given values.
    [Demo.platform] is a small stand-in: paths are '/'-separated strings, the
    disk is a list of the files that exist, aliasing is the identity, URL
    encoding escapes the characters ['/'], ['%'] and [' '], and the R session
    reports a fixed format.  The theorems below hold for every platform; only
    their instances at concrete inputs use this one. *)

Module Demo.

Fixpoint has_slash (s : string) : bool :=
  match s with
  | EmptyString => false
  | String a s' => if decide (a = "/"%char) then true else has_slash s'
  end.

Fixpoint dirname (s : string) : string :=
  match s with
  | EmptyString => EmptyString
  | String a s' => if has_slash s' then String a (dirname s') else EmptyString
  end.

Fixpoint basename (s : string) : string :=
  match s with
  | EmptyString => EmptyString
  | String _ s' => if has_slash s then basename s' else s
  end.

Definition join (base path : string) : string :=
  if StdString.starts_with path "/" then path else base +:+ "/" +:+ path.

Definition extension (s : string) : string :=
  let e := StdString.drop (String.length s - 5) s in
  if decide (e = ".html") then e else EmptyString.

Fixpoint encode (s : string) : string :=
  match s with
  | EmptyString => EmptyString
  | String a s' =>
      if decide (a = "/"%char) then "%2F" +:+ encode s'
      else if decide (a = "%"%char) then "%25" +:+ encode s'
      else if decide (a = " "%char) then "%20" +:+ encode s'
      else String a (encode s')
  end.

Fixpoint decode (s : string) : string :=
  match s with
  | EmptyString => EmptyString
  | String a s' =>
      if decide (a = "%"%char) then
        if StdString.starts_with s' "2F" then
          String "/"%char (StdString.drop 2 (decode s'))
        else if StdString.starts_with s' "25" then
          String "%"%char (StdString.drop 2 (decode s'))
        else if StdString.starts_with s' "20" then
          String " "%char (StdString.drop 2 (decode s'))
        else String a (decode s')
      else String a (decode s')
  end.

Definition read_params (ps : list json_value) : Error * (string * Z * string) :=
  match ps with
  | [Jstr file; Jint line; Jstr encoding] => (Success, (file, line, encoding))
  | _ => (Failure "Invalid params", (EmptyString, (-1)%Z, EmptyString))
  end.

(** [disk]: the files that exist.  [rscript]: what [rScriptPath] answers.
    [win32], [apple], [desktop]: the build and the program mode. *)
Definition platform (disk : list string) (rscript : Error)
    (win32 apple desktop : bool) : Platform :=
  {| FilePath := string;
     FilePath_new := EmptyString;
     FilePath_of := λ p, p;
     exists_ := λ p, bool_decide (p ∈ disk);
     parent := dirname;
     complete := join;
     childPath := join;
     absolutePath := λ p, p;
     filename := basename;
     extensionLowerCase := extension;
     createAliasedPath := λ p, p;
     resolveAliasedPath := λ p, p;
     rScriptPath := (rscript, "/usr/bin/R");
     previousRpubsUploadId := λ _, EmptyString;
     kCompileOutputNormal := 0;
     kCompileOutputError := 1;
     compileOutputAsJson := λ type output,
       Jobj (<["output" := Jstr output]> (<["type" := Jint type]> ∅));
     runProgram_error := λ _ _, Success;
     Request := string;
     pathAfterPrefix := λ uri prefix,
       decode (StdString.drop (String.length prefix) uri);
     urlEncode := λ s _, encode s;
     urlDecode := decode;
     readParams := read_params;
     SEXP := unit;
     default_output_format := λ _ _, (Success, ());
     getNamedListElement := λ _ _, (Success, "html_document");
     getNamedListSEXP := λ _ _, (Success, ());
     jsonValueFromList := λ _, (Success, Jobj ∅);
     system_file_mathjax := (Success, "/usr/lib/R/rmarkdown/rmd/h/m");
     ammendResults := λ _ _ _ resultJson, resultJson;
     WIN32 := win32;
     APPLE := apple;
     programMode := if desktop then "desktop" else "server";
     kSessionProgramModeDesktop := "desktop";
     kQtMathJaxConfigScript := "<script>/* MathJax config */</script>" |}.

(** The platforms of the examples: a Unix server build with the rendered
    file on disk; the same for Windows; the same in desktop mode; one
    without an R binary; one with an empty disk; one whose rendered file
    has a name that starts with a space. *)
Definition unix : Platform :=
  platform ["/home/u/doc.html"] Success false false false.
Definition windows : Platform :=
  platform ["/home/u/doc.html"] Success true false false.
Definition desktop : Platform :=
  platform ["/home/u/doc.html"] Success false false true.
Definition without_R : Platform :=
  platform [] (Failure "R not found") false false false.
Definition empty_disk : Platform :=
  platform [] Success false false false.
Definition spaced_name : Platform :=
  platform ["/home/u/ doc.html"] Success false false false.

(** A job for [target], line 3, encoding UTF-8, at address 0, as [start]
    leaves it when the program has been launched. *)
Definition doc_job (P : Platform) (target : @FilePath P) : @Ctx P :=
  @mkCtx P 0 (@job_at_launch P "UTF-8" (@RenderRmd_new P target 3%Z)) [] [].

(** The same job with its output file resolved. *)
Definition rendered_job (P : Platform) (target output : @FilePath P)
  : @Ctx P :=
  @mkCtx P 0
    (@set_outputFile_ P output
       (@job_at_launch P "UTF-8" (@RenderRmd_new P target 3%Z))) [] [].

(** The request to render [/home/u/doc.Rmd]. *)
Definition render_request : JsonRpcRequest :=
  mkJsonRpcRequest [Jstr "/home/u/doc.Rmd"; Jint 3; Jstr "UTF-8"].

(** The session with one running job in the slot. *)
Definition busy_session (P : Platform) (target : @FilePath P) : @Session P :=
  @mkSession P {[ 0 := this (doc_job P target) ]} (Some 0) [] [].

(** Captured outputs. *)
Definition output_with_marker : string :=
  "processing file: doc.Rmd" +:+ newline +:+
  "Output created: doc.html" +:+ newline.
Definition output_with_spaced_name : string :=
  "Output created:  doc.html" +:+ newline.

(** A page with the configuration comment and the loader line, and the
    same page with inline math before them. *)
Definition loader_match : cmatch :=
  mkMatch ("  script.src = " +:+ dquote +:+
           "https://cdn.mathjax.org/mathjax/latest/MathJax.js?config=TeX" +:+
           dquote)
          "  script.src = " "MathJax.js?config=TeX".
Definition page_without_math : list (string * cmatch) :=
  [("<body><p>text</p>", mkMatch kMathjaxBeginComment EmptyString EmptyString);
   (" -->" +:+ newline, loader_match)].
Definition page_with_math : list (string * cmatch) :=
  ("<body><p>", mkMatch "\(" EmptyString EmptyString) :: page_without_math.

(** The session after the render request, and after a callback of the
    program at index [i] (the session as it is when the model has no answer). *)
Definition after_request : @Session unix :=
  match renderRmd (H := unix) render_request initial_session with
  | Ok (_, _, s') => s'
  | Throw _ => initial_session
  end.

Definition after_callback (i : nat) (cb : @ProcessCallback)
    (s : @Session unix) : @Session unix :=
  match deliver i cb s with
  | Some (Ok (_, s')) => s'
  | _ => s
  end.

End Demo.

(** ** The session as it evolves

    The RPC dispatcher calls [renderRmd] and [terminateRenderRmd], the process
    supervisor calls the callbacks bound by [performRender]: a step of the
    session is one such call that returns.  These definitions are not taken
    from the source; they say which sessions the module can be in. *)

Section SessionSteps.
Context `{Platform}.

Inductive step (s s' : Session) : Prop :=
| step_renderRmd request error result :
    renderRmd request s = Ok (error, result, s') → step s s'
| step_terminateRenderRmd error :
    terminateRenderRmd s = Ok (error, s') → step s s'
| step_callback i cb continue :
    deliver i cb s = Some (Ok (continue, s')) → step s s'.

Definition reachable (s : Session) : Prop := rtc step initial_session s.

(** What stays of a job from one state to a later one. *)
Definition job_keeps (r r' : RenderRmd) : Prop :=
  targetFile_ r' = targetFile_ r ∧
  sourceLine_ r' = sourceLine_ r ∧
  outputFormat_ r' = outputFormat_ r ∧
  (isRunning_ r = false → isRunning_ r' = false) ∧
  (terminationRequested_ r = true → terminationRequested_ r' = true).

(** Every job has been through [start]; every program's callbacks hold a
    live job; a running job is the one in the slot. *)
Definition jobs_started (s : Session) : Prop :=
  ∀ p r, objects s !! p = Some r → started r.

Definition callbacks_bound (s : Session) : Prop :=
  ∀ pr, pr ∈ processes s → is_Some (objects s !! cb_this pr).

Definition running_in_slot (s : Session) : Prop :=
  ∀ p r, objects s !! p = Some r → isRunning_ r = true →
         s_pCurrentRender_ s = Some p.

Definition wf_session (s : Session) : Prop :=
  jobs_started s ∧ callbacks_bound s ∧ running_in_slot s.

(** The job at [p] runs and no program's callbacks hold it. *)
Definition orphaned (p : nat) (s : Session) : Prop :=
  s_pCurrentRender_ s = Some p ∧
  (∃ r, objects s !! p = Some r ∧ isRunning_ r = true) ∧
  ∀ pr, pr ∈ processes s → cb_this pr ≠ p.

(** Output of the program, chunk by chunk as the supervisor reads it. *)
Inductive Chunk :=
| from_stdout (output : string)
| from_stderr (output : string).

Definition chunk_callback (ch : Chunk) : ProcessCallback :=
  match ch with
  | from_stdout output => cb_onStdout output
  | from_stderr output => cb_onStderr output
  end.

Definition chunk_text (ch : Chunk) : string :=
  match ch with
  | from_stdout output => output
  | from_stderr output => output
  end.

Definition chunk_event (ch : Chunk) : ClientEvent :=
  match ch with
  | from_stdout output =>
      mkClientEvent kRmdRenderOutput
        (compileOutputAsJson kCompileOutputNormal output)
  | from_stderr output =>
      mkClientEvent kRmdRenderOutput
        (compileOutputAsJson kCompileOutputError output)
  end.

Fixpoint deliver_chunks (i : nat) (chunks : list Chunk) (s : Session)
  : option (Result Session) :=
  match chunks with
  | [] => Some (Ok s)
  | ch :: chunks' =>
      match deliver i (chunk_callback ch) s with
      | Some (Ok (_, s')) => deliver_chunks i chunks' s'
      | Some (Throw e) => Some (Throw e)
      | None => None
      end
  end.

(** A captured output made of whole lines. *)
Definition unlines (ls : list string) : string :=
  concat_strings ((λ l, l +:+ newline) <$> ls).

Definition no_newline (l : string) : Prop :=
  ∀ i, String.get i l ≠ Some "010"%char.

Fixpoint all_space (s : string) : bool :=
  match s with
  | EmptyString => true
  | String a s' => Ascii.is_space a && all_space s'
  end.

Fixpoint last_char (s : string) : option ascii :=
  match s with
  | EmptyString => None
  | String a EmptyString => Some a
  | String _ s' => last_char s'
  end.

End SessionSteps.

(** ** Detection of the R Markdown source type: [onDetectRmdSourceType] *)

Module SourceType.

(** [std::toupper] in the classic locale. *)
Definition to_upper (a : ascii) : ascii :=
  let n := nat_of_ascii a in
  if decide (97 ≤ n ≤ 122) then ascii_of_nat (n - 32) else a.

(** [boost::algorithm::is_iequal]. *)
Definition is_iequal (a b : ascii) : bool :=
  bool_decide (to_upper a = to_upper b).

(** The test string matches at the start of the input, case ignored. *)
Fixpoint imatch_here (input test : string) : bool :=
  match test, input with
  | EmptyString, _ => true
  | String _ _, EmptyString => false
  | String b test', String a input' =>
      is_iequal a b && imatch_here input' test'
  end.

Fixpoint imatch_anywhere (input test : string) : bool :=
  imatch_here input test ||
  match input with
  | EmptyString => false
  | String _ input' => imatch_anywhere input' test
  end.

(** [boost::algorithm::icontains(input, test)]: an empty test string is
    contained in everything; otherwise the first-finder has to find it. *)
Definition icontains (input test : string) : bool :=
  match test with
  | EmptyString => true
  | String _ _ => imatch_anywhere input test
  end.

(** The part of [source_database::SourceDocument] the function reads. *)
Record SourceDocument := mkSourceDocument {
  path : string;
  contents : string;
}.

Definition kRmarkdownV1 : string := "<!-- rmarkdown v1 -->".

Section Detect.
Context `{Platform}.

(** [r::sexp::isNull(r::options::getOption("rstudio.markdownToHTML"))]. *)
Variable markdownToHTMLOption_isNull : bool.

(** [haveMarkdownToHTMLOption()] *)
Definition haveMarkdownToHTMLOption : bool :=
  negb markdownToHTMLOption_isNull.

(** [onDetectRmdSourceType(pDoc)] *)
Definition onDetectRmdSourceType (pDoc : SourceDocument) : string :=
  if negb (bool_decide (path pDoc = EmptyString)) then
    let filePath := resolveAliasedPath (path pDoc) in
    if (bool_decide (extensionLowerCase filePath = ".rmd")
        || bool_decide (extensionLowerCase filePath = ".md"))
       && negb (icontains (contents pDoc) kRmarkdownV1)
       && negb haveMarkdownToHTMLOption
    then "rmarkdown"
    else EmptyString
  else EmptyString.

End Detect.

(** Two texts that differ in letter case only. *)
Fixpoint same_ignoring_case (s t : string) : bool :=
  match s, t with
  | EmptyString, EmptyString => true
  | String a s', String b t' => is_iequal a b && same_ignoring_case s' t'
  | _, _ => false
  end.

End SourceType.

(** ** The build tab: [BuildTab.java] *)

Module BuildTab.

Inductive Command :=
| checkPackage
| buildAll
| rebuildAll
| cleanAll
| activateBuild.

#[global] Instance Command_eq_dec : EqDecision Command.
Proof. solve_decision. Defined.

(** The calls made on the commands. *)
Inductive CommandCall :=
| remove (command : Command)
| setImageResource_iconBuild (command : Command)
| setMenuLabel (command : Command) (label : string)
| setDesc (command : Command) (desc : string).

#[global] Instance CommandCall_eq_dec : EqDecision CommandCall.
Proof. solve_decision. Defined.

Section OnSessionInit.

(** [SessionInfo.BUILD_TOOLS_NONE], [BUILD_TOOLS_PACKAGE] and
    [BUILD_TOOLS_MAKEFILE], and the types of the build state and of the
    restart context: declared elsewhere. *)
Variables BUILD_TOOLS_NONE BUILD_TOOLS_PACKAGE BUILD_TOOLS_MAKEFILE : string.
Variables BuildState BuildRestartContext : Type.

(** The part of [SessionInfo] that is read; [None] is Java's [null]. *)
Record SessionInfo := mkSessionInfo {
  getBuildToolsType : string;
  getBuildState : option BuildState;
  getBuildRestartContext : option BuildRestartContext;
}.

(** The calls made on the shim. *)
Inductive ShimCall :=
| initialize (buildState : BuildState)
| initializeAfterRestart (restartContext : BuildRestartContext).

(** [onSessionInit(sie)] of the handler the constructor registers: the calls
    on the commands and on the shim, in order. *)
Definition onSessionInit (sessionInfo : SessionInfo)
  : list CommandCall * list ShimCall :=
  let type := getBuildToolsType sessionInfo in
  let calls :=
    if negb (bool_decide (type = BUILD_TOOLS_PACKAGE)) then
      [remove checkPackage;
       setImageResource_iconBuild buildAll;
       setMenuLabel buildAll "_Build All";
       setDesc buildAll "Build all"]
    else [] in
  let calls :=
    if negb (bool_decide (type = BUILD_TOOLS_MAKEFILE)) then
      calls ++ [remove rebuildAll; remove cleanAll]
    else calls in
  let calls :=
    if bool_decide (type = BUILD_TOOLS_NONE) then
      calls ++ [remove buildAll; remove rebuildAll; remove cleanAll;
                remove activateBuild]
    else calls in
  let buildState := getBuildState sessionInfo in
  let context := getBuildRestartContext sessionInfo in
  let shim :=
    match buildState, context with
    | Some buildState, _ => [initialize buildState]
    | None, Some context => [initializeAfterRestart context]
    | None, None => []
    end in
  (calls, shim).

(** [isSuppressed()] *)
Definition isSuppressed (sessionInfo : SessionInfo) : bool :=
  bool_decide (getBuildToolsType sessionInfo = BUILD_TOOLS_NONE).

(** A command is gone after the session has been initialised. *)
Definition removed (command : Command) (sessionInfo : SessionInfo) : Prop :=
  remove command ∈ (onSessionInit sessionInfo).1.

End OnSessionInit.

Arguments getBuildToolsType {_ _} _.
Arguments getBuildState {_ _} _.
Arguments getBuildRestartContext {_ _} _.
Arguments initialize {_ _} _.
Arguments initializeAfterRestart {_ _} _.
Arguments onSessionInit _ _ _ {_ _} _.
Arguments isSuppressed _ {_ _} _.
Arguments removed _ _ _ {_ _} _ _.

End BuildTab.

(** ** More inputs for the examples *)

Module Inputs.
Import Demo.

(** A platform on which [runProgram] fails. *)
Definition launch_refused : Platform :=
  {| FilePath := string;
     FilePath_new := EmptyString;
     FilePath_of := λ p, p;
     exists_ := λ p, bool_decide (p ∈ ["/home/u/doc.html"]);
     parent := dirname;
     complete := join;
     childPath := join;
     absolutePath := λ p, p;
     filename := basename;
     extensionLowerCase := extension;
     createAliasedPath := λ p, p;
     resolveAliasedPath := λ p, p;
     rScriptPath := (Success, "/usr/bin/R");
     previousRpubsUploadId := λ _, EmptyString;
     kCompileOutputNormal := 0;
     kCompileOutputError := 1;
     compileOutputAsJson := λ type output,
       Jobj (<["output" := Jstr output]> (<["type" := Jint type]> ∅));
     runProgram_error := λ _ _, Failure "fork failed";
     Request := string;
     pathAfterPrefix := λ uri prefix,
       decode (StdString.drop (String.length prefix) uri);
     urlEncode := λ s _, encode s;
     urlDecode := decode;
     readParams := read_params;
     SEXP := unit;
     default_output_format := λ _ _, (Failure "no rmarkdown", ());
     getNamedListElement := λ _ _, (Success, "html_document");
     getNamedListSEXP := λ _ _, (Success, ());
     jsonValueFromList := λ _, (Success, Jobj ∅);
     system_file_mathjax := (Success, "/usr/lib/R/rmarkdown/rmd/h/m");
     ammendResults := λ _ _ _ resultJson, resultJson;
     WIN32 := false;
     APPLE := false;
     programMode := "server";
     kSessionProgramModeDesktop := "desktop";
     kQtMathJaxConfigScript := "<script>/* MathJax config */</script>" |}.

(** The session of the demo platform once the program has written its
    output, and once it has exited. *)
Definition after_output : @Session unix :=
  after_callback 0 (cb_onStdout output_with_marker) after_request.

Definition after_exit : @Session unix :=
  after_callback 0 (cb_onExit 0) after_output.

(** An output with a CR-LF line end after the marker line. *)
Definition carriage_return : string := String "013"%char EmptyString.

(** A document that opts out of R Markdown v2, in capitals. *)
Definition v1_document : SourceType.SourceDocument :=
  SourceType.mkSourceDocument "~/notes.Rmd"
    ("# Notes" +:+ newline +:+ "<!-- RMarkdown V1 -->" +:+ newline).

(** Session infos of a project without build tools and of a package. *)
Definition no_build_tools : BuildTab.SessionInfo unit unit :=
  BuildTab.mkSessionInfo unit unit "None" None None.

Definition package_project : BuildTab.SessionInfo unit unit :=
  BuildTab.mkSessionInfo unit unit "Package" (Some ()) (Some ()).

(** The session of the platform that refuses the launch, after the render
    request. *)
Definition stuck_session : @Session launch_refused :=
  match renderRmd (H := launch_refused) render_request initial_session with
  | Ok (_, _, s') => s'
  | Throw _ => initial_session
  end.

(** Output read from the two streams of the program. *)
Definition two_chunks : list Chunk :=
  [from_stdout ("processing file: doc.Rmd" +:+ newline);
   from_stderr ("Output created: doc.html" +:+ newline)].

(** A page with inline and display math and no loader line. *)
Definition math_only_page : list (string * cmatch) :=
  [("<p>", mkMatch "\(" EmptyString EmptyString);
   ("x\)</p><p>", mkMatch "\[" EmptyString EmptyString)].

End Inputs.

(** * Properties *)

(** ** Strings *)

Lemma append_cons a s t : String a s +:+ t = String a (s +:+ t).
Proof. reflexivity. Qed.

Lemma append_nil_l t : EmptyString +:+ t = t.
Proof. reflexivity. Qed.

Lemma append_nil_r s : s +:+ EmptyString = s.
Proof.
  induction s as [|a s IH]; [reflexivity|]. by rewrite append_cons, IH.
Qed.

Lemma append_assoc s t u : (s +:+ t) +:+ u = s +:+ t +:+ u.
Proof.
  induction s as [|a s IH]; [reflexivity|]. by rewrite !append_cons, IH.
Qed.

Lemma split_line_cons a s :
  StdString.split_line (String a s) =
  if decide (a = "010"%char) then (EmptyString, s)
  else (String a (fst (StdString.split_line s)), snd (StdString.split_line s)).
Proof.
  simpl. destruct (decide _); [reflexivity|].
  destruct (StdString.split_line s); reflexivity.
Qed.

Lemma split_line_lines s :
  s ≠ EmptyString →
  lines s = fst (StdString.split_line s) :: lines (snd (StdString.split_line s)).
Proof.
  induction s as [|a s IH]; [congruence|]. intros _.
  rewrite split_line_cons. cbn [lines].
  destruct (decide (a = "010"%char)); [reflexivity|].
  destruct s as [|b s]; [reflexivity|].
  rewrite IH by congruence. reflexivity.
Qed.

(** [getline] hands out the lines one by one. *)
Lemma getline_lines s :
  match StdString.getline s with
  | Some (l, r) => lines s = l :: lines r
  | None => lines s = []
  end.
Proof.
  destruct s as [|a s]; [reflexivity|]. unfold StdString.getline.
  rewrite (split_line_lines (String a s)) by congruence.
  destruct (StdString.split_line (String a s)); reflexivity.
Qed.

Lemma starts_with_length s t :
  StdString.starts_with s t = true → String.length t ≤ String.length s.
Proof.
  revert s. induction t as [|b t IH]; intros [|a s]; simpl; try (done || lia).
  case_decide; [|done]. intros ?%IH. lia.
Qed.

Lemma starts_with_app s t :
  StdString.starts_with s t = true →
  s = t +:+ StdString.drop (String.length t) s.
Proof.
  revert s. induction t as [|b t IH]; intros [|a s]; simpl; try done.
  case_decide; [|done]. intros ?%IH. rewrite append_cons. congruence.
Qed.

Lemma find_Some_lt s c pos i :
  StdString.find s c pos = Some i → pos ≤ i < String.length s.
Proof.
  revert pos i. induction s as [|a s IH]; intros pos i; simpl; [done|].
  destruct pos as [|pos].
  - case_decide; [intros [= <-]; lia|].
    destruct (StdString.find s c 0) as [j|] eqn:Hj; [|done].
    intros [= <-]. apply IH in Hj. lia.
  - destruct (StdString.find s c pos) as [j|] eqn:Hj; [|done].
    intros [= <-]. apply IH in Hj. lia.
Qed.

Lemma find_None s c pos :
  StdString.find s c pos = None ↔
  ∀ i, pos ≤ i → String.get i s ≠ Some c.
Proof.
  revert pos. induction s as [|a s IH]; intros pos; simpl.
  - split; [|done]. intros _ i _. by destruct i.
  - destruct pos as [|pos].
    + case_decide as Ha.
      * split; [done|]. intros Hi. specialize (Hi 0). simpl in Hi.
        exfalso. apply Hi; [lia|congruence].
      * destruct (StdString.find s c 0) as [j|] eqn:Hj; simpl.
        -- split; [done|]. intros Hi. exfalso.
           assert (StdString.find s c 0 = None) as Hn; [|congruence].
           apply IH. intros i _. apply (Hi (S i)). lia.
        -- split; [|done]. intros _ [|i] _; simpl; [congruence|].
           apply (proj1 (IH 0)); [done|lia].
    + destruct (StdString.find s c pos) as [j|] eqn:Hj; simpl.
      * split; [done|]. intros Hi. exfalso.
        assert (StdString.find s c pos = None) as Hn; [|congruence].
        apply IH. intros i Hle. apply (Hi (S i)). lia.
      * split; [|done]. intros _ [|i] Hle; simpl; [lia|].
        apply (proj1 (IH pos)); [done|lia].
Qed.

(** ** The render job *)

Section RenderJobFacts.
Context `{Platform}.

(** The scanning loop ends without an exception; it stores the file named
    by the first marked line, and nothing else changes. *)
Lemma scanOutput_spec stream c :
  scanOutput stream c =
  Ok ((), match marker_line stream with
          | Some line =>
              mkCtx (self c)
                (set_outputFile_ (named_file (targetFile_ (this c)) line)
                                 (this c))
                (clientEvents c) (launched c)
          | None => c
          end).
Proof.
  unfold marker_line.
  revert c. funelim (scanOutput stream); intros c;
    pose proof (getline_lines outputStream) as Hl;
    match goal with Hg : StdString.getline _ = _ |- _ => rewrite Hg in Hl end;
    rewrite Hl; cbn [List.find]; [|reflexivity].
  unfold marked at 1.
  destruct (StdString.starts_with renderLine completeMarker) eqn:Hsw.
  - apply starts_with_length in Hsw.
    unfold mbind, M_bind, lift, StdString.substr.
    rewrite decide_True by done. reflexivity.
  - auto.
Qed.

(** Trimming at both ends and trimming at the end give the same name unless
    the text after the marker starts with whitespace. *)
Lemma trim_right_head a s :
  Ascii.is_space a = false →
  ∃ t, StdString.trim_right (String a s) = String a t.
Proof.
  intros Ha. cbn [StdString.trim_right].
  destruct (StdString.trim_right s) as [|b t]; [|by eexists].
  rewrite Ha. by eexists.
Qed.

Lemma named_file_without_leading_space targetFile line :
  match StdString.drop (String.length completeMarker) line with
  | EmptyString => True
  | String a _ => Ascii.is_space a = false
  end →
  named_file targetFile line = named_file_trimmed_right targetFile line.
Proof.
  unfold named_file, named_file_trimmed_right, StdString.trim.
  destruct (StdString.drop _ line) as [|a s]; [done|]. intros Ha.
  destruct (trim_right_head a s Ha) as [t ->].
  cbn [StdString.trim_left]. by rewrite Ha.
Qed.

Lemma getOutputFormat_format_name path encoding resultJson :
  ∃ formatName,
    getOutputFormat path encoding resultJson !! "format_name"
    = Some (Jstr formatName).
Proof.
  unfold getOutputFormat.
  destruct (default_output_format path encoding) as [error sexp].
  destruct (is_error error).
  - exists EmptyString. by simplify_map_eq.
  - destruct (getNamedListElement sexp "name") as [? formatName].
    destruct (getNamedListSEXP sexp "options") as [? ?].
    exists formatName. by simplify_map_eq.
Qed.

(** [terminate(succeeded)] on a started job: the job stops running and one
    completion event is queued, whose fields are those the function sets,
    passed through the presentation add-on. *)
Lemma terminate_spec succeeded c :
  started (this c) →
  ∃ formatName resultJson,
    terminate succeeded c =
      Ok ((), mkCtx (self c) (set_isRunning_ false (this c))
                (clientEvents c ++
                   [completed_event
                      (ammendResults formatName (targetFile_ (this c))
                         (sourceLine_ (this c)) resultJson)])
                (launched c)) ∧
    resultJson !! "succeeded" = Some (Jbool succeeded) ∧
    resultJson !! "target_file"
      = Some (Jstr (createAliasedPath (targetFile_ (this c)))) ∧
    resultJson !! "output_file"
      = Some (Jstr (createAliasedPath (outputFile_ (this c)))) ∧
    resultJson !! "output_url"
      = Some (Jstr (outputUrl_of (if WIN32 then 3 else 2) (this c))).
Proof.
  intros [formatName Hfmt]. exists formatName.
  unfold terminate, mbind, M_bind, modify_this, get_this, lift,
    enqueClientEvent, json_index. cbn.
  rewrite Hfmt. cbn. eexists. split; [reflexivity|].
  unfold outputUrl_of. rewrite append_assoc.
  destruct (decide (extensionLowerCase (outputFile_ (this c)) = ".html"));
    destruct WIN32; by simplify_map_eq.
Qed.

Lemma job_at_launch_started encoding r : started (job_at_launch encoding r).
Proof. apply getOutputFormat_format_name. Qed.

(** [start] when the R binary cannot be found. *)
Lemma start_launch_failure encoding c :
  is_error rScriptPath.1 = true →
  ∃ formatName resultJson,
    start encoding c =
      Ok ((), mkCtx (self c)
                (set_isRunning_ false (job_at_launch encoding (this c)))
                (clientEvents c ++
                   [started_event (job_at_launch encoding (this c));
                    launch_error_event (targetFile_ (this c)) rScriptPath.1;
                    completed_event
                      (ammendResults formatName (targetFile_ (this c))
                         (sourceLine_ (this c)) resultJson)])
                (launched c)) ∧
    resultJson !! "succeeded" = Some (Jbool false) ∧
    resultJson !! "output_file"
      = Some (Jstr (createAliasedPath (outputFile_ (this c)))).
Proof.
  intros Herr.
  pose (c1 := mkCtx (self c) (job_at_launch encoding (this c))
                (clientEvents c ++
                   [started_event (job_at_launch encoding (this c));
                    launch_error_event (targetFile_ (this c)) rScriptPath.1])
                (launched c)).
  destruct (terminate_spec false c1 (job_at_launch_started _ _))
    as (formatName & resultJson & Hterm & Hs & _ & Hf & _).
  exists formatName, resultJson. split; [|split; [exact Hs|exact Hf]].
  subst c1. cbn -[terminate] in Hterm. rewrite <- app_assoc in Hterm.
  unfold start, performRender, terminateWithError,
    terminateWithError_message, enqueRenderOutput.
  destruct rScriptPath as [error rProgramPath]. simpl in Herr.
  unfold mbind, M_bind, modify_this, get_this, enqueClientEvent.
  cbn -[terminate]. rewrite Herr. cbn -[terminate].
  rewrite <- app_assoc. exact Hterm.
Qed.

(** [start] when the R binary is there: the job is left running, and the
    program is with the process supervisor unless [runProgram] failed. *)
Lemma start_launched encoding c :
  is_error rScriptPath.1 = false →
  start encoding c =
    Ok ((), mkCtx (self c) (job_at_launch encoding (this c))
              (clientEvents c ++
                 [started_event (job_at_launch encoding (this c))])
              (launched c ++
                 if is_error (runProgram_error
                                (executable (render_process encoding c))
                                (args (render_process encoding c)))
                 then [] else [render_process encoding c])).
Proof.
  intros Herr.
  unfold start, performRender, runProgram, render_process.
  destruct rScriptPath as [error rProgramPath]. simpl in Herr.
  unfold mbind, M_bind, mret, M_ret, modify_this, get_this, get_self,
    enqueClientEvent.
  cbn. rewrite Herr. cbn.
  destruct (is_error (runProgram_error _ _)); cbn; rewrite ?app_nil_r;
    reflexivity.
Qed.

(** [start] always returns; it keeps the target and the line, records the
    encoding and leaves a started job. *)
Lemma start_total encoding c :
  ∃ c', start encoding c = Ok ((), c') ∧
    self c' = self c ∧
    targetFile_ (this c') = targetFile_ (this c) ∧
    sourceLine_ (this c') = sourceLine_ (this c) ∧
    encoding_ (this c') = encoding ∧
    started (this c').
Proof.
  destruct (is_error rScriptPath.1) eqn:Herr.
  - destruct (start_launch_failure encoding c Herr)
      as (formatName & resultJson & -> & _).
    eexists. split; [reflexivity|]. repeat split; try done.
    apply (job_at_launch_started encoding (this c)).
  - rewrite (start_launched encoding c Herr).
    eexists. split; [reflexivity|]. repeat split; try done.
    apply (job_at_launch_started encoding (this c)).
Qed.

(** [onRenderCompleted] on a started job: the scan, then [terminate]. *)
Lemma onRenderCompleted_spec exitStatus encoding allOutput c :
  started (this c) →
  let outputFile :=
    match marker_line allOutput with
    | Some line => named_file (targetFile_ (this c)) line
    | None => outputFile_ (this c)
    end in
  ∃ formatName resultJson,
    onRenderCompleted exitStatus encoding allOutput c =
      Ok ((), mkCtx (self c)
                (set_isRunning_ false (set_outputFile_ outputFile (this c)))
                (clientEvents c ++
                   [completed_event
                      (ammendResults formatName (targetFile_ (this c))
                         (sourceLine_ (this c)) resultJson)])
                (launched c)) ∧
    resultJson !! "succeeded"
      = Some (Jbool (bool_decide (exitStatus = 0%Z) && exists_ outputFile)) ∧
    resultJson !! "output_file"
      = Some (Jstr (createAliasedPath outputFile)) ∧
    resultJson !! "output_url"
      = Some (Jstr (kRmdOutput +:+ "/" +:+
                    encoded (if WIN32 then 3 else 2)
                            (createAliasedPath outputFile) +:+ "/")).
Proof.
  intros Hst outputFile.
  pose (c1 := mkCtx (self c) (set_outputFile_ outputFile (this c))
                (clientEvents c) (launched c)).
  assert (started (this c1)) as Hst1 by done.
  destruct (terminate_spec
              (bool_decide (exitStatus = 0%Z) && exists_ outputFile) c1 Hst1)
    as (formatName & resultJson & Hterm & Hs & _ & Hf & Hu).
  exists formatName, resultJson. split; [|done].
  unfold onRenderCompleted, mbind, M_bind, get_this.
  rewrite scanOutput_spec. subst outputFile c1.
  destruct (marker_line allOutput) as [line|]; cbn -[terminate] in *.
  - exact Hterm.
  - destruct c as [p [] ev la]. exact Hterm.
Qed.

End RenderJobFacts.

(** ** The render supervisor *)

Section SupervisorFacts.
Context `{Platform}.

Lemma isRenderRunning_true s :
  isRenderRunning s = true ↔
  ∃ p r, s_pCurrentRender_ s = Some p ∧ objects s !! p = Some r ∧
         isRunning_ r = true.
Proof.
  unfold isRenderRunning, isRunning. split.
  - destruct (s_pCurrentRender_ s) as [p|]; [|done].
    destruct (objects s !! p) as [r|] eqn:Hr; [|done]. eauto.
  - intros (p & r & -> & -> & ?). done.
Qed.

(** C1. A start request whose parameters read as [(file, line, encoding)]:
    while the current job is running, [renderRmd] answers [false] and the
    session stays as it is (so neither the running job nor the current-job
    slot changes); otherwise it makes a new job for the resolved file, the
    line and the encoding at a fresh address, puts it into the slot, leaves
    the older jobs alone, and answers [true]. *)
Theorem renderRmd_rejects_or_installs request s file line encoding :
  readParams (params request) = (Success, (file, line, encoding)) →
  (isRenderRunning s = true →
     renderRmd request s = Ok (Success, Some (Jbool false), s)) ∧
  (isRenderRunning s = false →
     ∃ job s',
       renderRmd request s = Ok (Success, Some (Jbool true), s') ∧
       let p := fresh (dom (objects s)) in
       objects s !! p = None ∧
       s_pCurrentRender_ s' = Some p ∧
       objects s' !! p = Some job ∧
       targetFile_ job = resolveAliasedPath file ∧
       sourceLine_ job = line ∧
       encoding_ job = encoding ∧
       ∀ q, q ≠ p → objects s' !! q = objects s !! q).
Proof.
  intros Hparams. unfold renderRmd. rewrite Hparams. cbn [is_error].
  split; intros ->; [reflexivity|].
  set (p := fresh (dom (objects s))).
  destruct (start_total encoding
              (mkCtx p (RenderRmd_new (resolveAliasedPath file) line)
                 (eventQueue s) []))
    as (c & Hstart & Hself & Htarget & Hline & Henc & _).
  unfold create_at. rewrite Hstart. cbn in *.
  exists (this c), (commit s (Some p) c).
  split; [reflexivity|]. unfold commit; cbn. rewrite Hself.
  split; [apply not_elem_of_dom, is_fresh|].
  split; [reflexivity|].
  split; [apply lookup_insert_eq|].
  repeat (split; [assumption|]).
  intros q Hq. by apply lookup_insert_ne.
Qed.

(** C9. [terminateRenderRmd] always returns [Success].  With no render
    running the session stays as it is.  With a render running, the job in
    the slot has its termination flag set and nothing else changes; on that
    job [onRenderContinue] answers [false], and so does the [onContinue]
    callback of every program of that job when the process supervisor polls
    it. *)
Theorem terminateRenderRmd_sets_flag s :
  ∃ s', terminateRenderRmd s = Ok (Success, s') ∧
    (isRenderRunning s = false → s' = s) ∧
    (isRenderRunning s = true →
       ∃ p r,
         s_pCurrentRender_ s = Some p ∧ objects s !! p = Some r ∧
         s' = mkSession (<[p := set_terminationRequested_ true r]> (objects s))
                        (s_pCurrentRender_ s) (eventQueue s) (processes s) ∧
         (∀ c, this c = set_terminationRequested_ true r →
               onRenderContinue c = Ok (false, c)) ∧
         (∀ i pr, processes s !! i = Some pr → cb_this pr = p →
                  deliver i cb_onContinue s' = Some (Ok (false, s')))).
Proof.
  unfold terminateRenderRmd.
  destruct (isRenderRunning s) eqn:Hrun.
  - apply isRenderRunning_true in Hrun as (p & r & Hp & Hr & _).
    rewrite Hp, Hr. cbn. eexists. split; [reflexivity|].
    split; [done|]. intros _. exists p, r.
    split; [done|]. split; [done|].
    unfold commit; cbn. rewrite app_nil_r.
    split; [done|]. split.
    + intros c Hc. unfold onRenderContinue, mbind, M_bind, get_this, mret,
        M_ret. by rewrite Hc.
    + intros i pr Hpr <-. unfold deliver. cbn. rewrite Hpr. cbn.
      rewrite lookup_insert_eq. cbn.
      unfold onRenderContinue, mbind, M_bind, Result_bind, get_this, mret,
        M_ret. cbn. unfold commit. cbn.
      by rewrite insert_insert_eq, app_nil_r.
  - exists s. split; [reflexivity|]. split; [done|]. done.
Qed.

End SupervisorFacts.

(** ** Completion of a render job *)

Section Completion.
Context `{Platform}.

(** C2. When the process of a started job exits, one completion event is
    queued; its [succeeded] field is true exactly when the exit status is
    zero and the job's output file, as resolved by the scan, exists.  With a
    nonzero exit status it is false whatever the captured output holds.  For
    a job whose output file was unset before, on a platform where the unset
    path does not exist, this reads: [succeeded] is true exactly when the
    exit status is zero, a marker line was found and the file it names
    exists.  (The presentation add-on is taken not to touch [succeeded].) *)
Theorem completion_succeeded_iff c exitStatus encoding allOutput :
  started (this c) →
  ammendResults_keeps "succeeded" →
  ∃ c' resultJson,
    onRenderCompleted exitStatus encoding allOutput c = Ok ((), c') ∧
    clientEvents c' = clientEvents c ++ [completed_event resultJson] ∧
    resultJson !! "succeeded"
      = Some (Jbool (bool_decide (exitStatus = 0%Z)
                     && exists_ (outputFile_ (this c')))) ∧
    (exitStatus ≠ 0%Z → resultJson !! "succeeded" = Some (Jbool false)) ∧
    (outputFile_ (this c) = FilePath_new →
     exists_ FilePath_new = false →
     resultJson !! "succeeded" = Some (Jbool true) ↔
     exitStatus = 0%Z ∧
     ∃ line, marker_line allOutput = Some line ∧
             exists_ (named_file (targetFile_ (this c)) line) = true).
Proof.
  intros Hst Hkeep.
  destruct (onRenderCompleted_spec exitStatus encoding allOutput c Hst)
    as (formatName & resultJson & Hrun & Hs & _).
  eexists _, _. split; [exact Hrun|]. cbn.
  split; [reflexivity|]. rewrite Hkeep.
  split; [exact Hs|]. split.
  { intros Hne. by rewrite Hs, bool_decide_eq_false_2. }
  intros Hunset Hnone. rewrite Hs. split.
  - intros [= Htrue]. apply andb_true_iff in Htrue as [Hexit Hexists].
    apply bool_decide_eq_true_1 in Hexit. split; [done|].
    destruct (marker_line allOutput) as [line|]; [by eexists|].
    congruence.
  - intros (-> & line & Hline & Hexists). by rewrite Hline, Hexists.
Qed.

(** C3, as the code has it.  When the process of a started job exits, the
    job's [outputFile_] is the file named by the first marker line of the
    captured output, resolved against the directory of the target file, and
    that whatever the exit status is and whether the file exists; with no
    marker line the field stays as it was (unset, for a job that completes
    for the first time). *)
Theorem outputFile_set_iff_marker c exitStatus encoding allOutput :
  started (this c) →
  ∃ c',
    onRenderCompleted exitStatus encoding allOutput c = Ok ((), c') ∧
    outputFile_ (this c') =
      match marker_line allOutput with
      | Some line => named_file (targetFile_ (this c)) line
      | None => outputFile_ (this c)
      end.
Proof.
  intros Hst.
  destruct (onRenderCompleted_spec exitStatus encoding allOutput c Hst)
    as (formatName & resultJson & Hrun & _).
  eexists. split; [exact Hrun|]. reflexivity.
Qed.

(** C7, as the code has it.  The completion event of a started job carries
    as [output_url] the mount segment, a slash, the aliased path of the
    output file URL-encoded twice (three times in a build for Windows),
    and a slash.  (The presentation add-on is taken not to touch
    [output_url].) *)
Theorem outputUrl_encoded_per_build c succeeded :
  started (this c) →
  ammendResults_keeps "output_url" →
  ∃ c' resultJson,
    terminate succeeded c = Ok ((), c') ∧
    last (clientEvents c') = Some (completed_event resultJson) ∧
    resultJson !! "output_url"
      = Some (Jstr (kRmdOutput +:+ "/" +:+
                    encoded (if WIN32 then 3 else 2)
                            (createAliasedPath (outputFile_ (this c)))
                    +:+ "/")).
Proof.
  intros Hst Hkeep.
  destruct (terminate_spec succeeded c Hst)
    as (formatName & resultJson & Hrun & _ & _ & _ & Hu).
  eexists _, _. split; [exact Hrun|]. cbn.
  split; [apply last_snoc|]. rewrite Hkeep. exact Hu.
Qed.

(** C8. A start request accepted while the R binary cannot be resolved:
    after the started event, exactly one render-output event of the error
    kind is queued, with the message made of the aliased target path and
    the summary of the error, and right after it the completion event with
    [succeeded] false and the alias of the unset path as output file.  The
    request itself is answered as usual; no program is left with the process
    supervisor, the older jobs are as they were, and no render is running
    afterwards.  (The presentation add-on is taken not to touch [succeeded]
    or [output_file].) *)
Theorem launch_failure_reported request s file line encoding :
  readParams (params request) = (Success, (file, line, encoding)) →
  isRenderRunning s = false →
  is_error rScriptPath.1 = true →
  ammendResults_keeps "succeeded" →
  ammendResults_keeps "output_file" →
  ∃ s' job startedJson resultJson,
    renderRmd request s = Ok (Success, Some (Jbool true), s') ∧
    eventQueue s' =
      eventQueue s ++
        [mkClientEvent kRmdRenderStarted startedJson;
         mkClientEvent kRmdRenderOutput
           (compileOutputAsJson kCompileOutputError
              ("Error rendering R Markdown for " +:+
               createAliasedPath (resolveAliasedPath file) +:+ " " +:+
               summary rScriptPath.1));
         completed_event resultJson] ∧
    resultJson !! "succeeded" = Some (Jbool false) ∧
    resultJson !! "output_file" = Some (Jstr (createAliasedPath FilePath_new)) ∧
    s_pCurrentRender_ s' = Some (fresh (dom (objects s))) ∧
    objects s' !! fresh (dom (objects s)) = Some job ∧
    isRunning_ job = false ∧
    outputFile_ job = FilePath_new ∧
    processes s' = processes s ∧
    isRenderRunning s' = false ∧
    ∀ q r, objects s !! q = Some r → objects s' !! q = Some r.
Proof.
  intros Hparams Hrun Herr Hks Hkf.
  unfold renderRmd. rewrite Hparams, Hrun. cbn [is_error].
  set (p := fresh (dom (objects s))).
  set (c := mkCtx p (RenderRmd_new (resolveAliasedPath file) line)
              (eventQueue s) []).
  destruct (start_launch_failure encoding c Herr)
    as (formatName & resultJson & Hstart & Hs & Hf).
  unfold create_at. fold c. rewrite Hstart. cbn.
  eexists _, _, _, _. split; [reflexivity|].
  unfold commit, isRenderRunning; cbn.
  split; [reflexivity|].
  rewrite lookup_insert_eq, app_nil_r, Hks, Hkf.
  repeat (split; [done|]).
  intros q r Hq. rewrite lookup_insert_ne; [done|].
  intros <-. subst p.
  pose proof (is_fresh (dom (objects s))) as Hfresh.
  apply not_elem_of_dom in Hfresh. congruence.
Qed.

End Completion.

(** ** The content rewriter *)

Section RewriterFacts.
Context `{Platform}.

(** One substitution: what is put out depends on the flag alone, and the
    flag is raised by a math start token and by nothing else. *)
Lemma substitute_emitted m f :
  substitute m f =
  (emitted (hasMathjax_ f) m,
   mkMathjaxFilter (hasMathjax_ f || is_math_token m)).
Proof.
  destruct f as [seen]. unfold substitute, emitted, is_math_token,
    is_config_marker, script_rewritten, kMathjaxSegment. cbn.
  destruct (decide (m0 m = "\[" ∨ m0 m = "\(" ∨ m0 m = "<math")) as [Ht|Ht].
  - rewrite bool_decide_eq_true_2 by done. by rewrite orb_true_r.
  - rewrite bool_decide_eq_false_2 by done. rewrite orb_false_r.
    destruct (decide (m0 m = kMathjaxBeginComment)) as [Hc|Hc].
    + rewrite bool_decide_eq_true_2 by done.
      destruct APPLE; [done|]. cbn.
      destruct (decide (programMode ≠ kSessionProgramModeDesktop)) as [Hm|Hm].
      * by rewrite bool_decide_eq_false_2.
      * rewrite bool_decide_eq_true_2 by (by destruct (decide (programMode = kSessionProgramModeDesktop))).
        by rewrite append_assoc.
    + rewrite bool_decide_eq_false_2 by done. by destruct seen.
Qed.

Lemma replace_matches_pieces ms pre f :
  hasMathjax_ f = existsb (λ pm, is_math_token pm.2) pre →
  (replace_matches ms f).1 =
  concat_strings (piece emitted (pre ++ ms) <$> seq (length pre) (length ms)).
Proof.
  revert pre f. induction ms as [|[prefix m] ms IH]; intros pre f Hf;
    [reflexivity|].
  cbn [replace_matches]. rewrite substitute_emitted.
  specialize (IH (pre ++ [(prefix, m)])
                 (mkMathjaxFilter (hasMathjax_ f || is_math_token m))).
  destruct (replace_matches ms _) as [dest f'] eqn:Hrest. cbn [fst] in *.
  rewrite IH; last first.
  { rewrite existsb_app. cbn. by rewrite Hf, orb_false_r. }
  cbn [length seq fmap list_fmap concat_strings].
  rewrite <- app_assoc, length_app, Nat.add_1_r. cbn [app].
  unfold piece at 2, math_seen_before.
  rewrite list_lookup_middle by done.
  rewrite take_app_length, <- Hf.
  by rewrite append_assoc.
Qed.

(** C6, as the code has it.  A document goes through a fresh filter as
    follows: the text between the matches and the math start tokens are
    copied; the loader line is dropped when no math start token came before
    it and otherwise rerouted to [mathjax/] with the path from [MathJax.js]
    on; the configuration comment is copied, with the configuration script
    and a newline put in before it in desktop mode on a build that is not
    for Apple.  Outside that mode nothing but the loader line changes. *)
Theorem rewriter_output ms suffix :
  (do_filter ms suffix MathjaxFilter_new).1 = rewritten_text emitted ms suffix ∧
  (APPLE = true ∨ programMode ≠ kSessionProgramModeDesktop →
   only_script_line_changed ms suffix).
Proof.
  assert ((do_filter ms suffix MathjaxFilter_new).1
          = rewritten_text emitted ms suffix) as Hout.
  { unfold do_filter, rewritten_text.
    pose proof (replace_matches_pieces ms [] MathjaxFilter_new eq_refl) as Hp.
    destruct (replace_matches ms MathjaxFilter_new) as [dest f].
    cbn in *. by rewrite Hp. }
  split; [exact Hout|]. intros Hmode.
  unfold only_script_line_changed. rewrite Hout.
  unfold rewritten_text. f_equal. f_equal.
  apply list_fmap_ext. intros _ i _. unfold piece.
  destruct (ms !! i) as [[prefix m]|]; [|done]. f_equal.
  unfold emitted, emitted_unchanged_but_script.
  destruct (is_math_token m); [done|]. cbn.
  destruct (is_config_marker m); [|done].
  destruct Hmode as [->| Hmode]; [done|].
  by rewrite bool_decide_eq_false_2, andb_false_r.
Qed.

End RewriterFacts.

(** ** The output-resource server *)

Lemma drop_app_length s t : StdString.drop (String.length s) (s +:+ t) = t.
Proof. induction s as [|a s IH]; [by destruct t|]. exact IH. Qed.

Lemma take_app_length s t : StdString.take (String.length s) (s +:+ t) = s.
Proof.
  induction s as [|a s IH]; [by destruct t|].
  rewrite append_cons. cbn. by rewrite IH.
Qed.

Lemma take_all n s : String.length s ≤ n → StdString.take n s = s.
Proof.
  revert n. induction s as [|a s IH]; intros [|n] Hn; cbn in *;
    try (done || lia).
  rewrite IH; [done|lia].
Qed.

Lemma length_append s t :
  String.length (s +:+ t) = String.length s + String.length t.
Proof.
  induction s as [|a s IH]; [reflexivity|].
  rewrite append_cons. cbn. by rewrite IH.
Qed.

(** The first [c] at or after [pos] is the one that follows [s], when [s] has
    none from [pos] on. *)
Lemma find_separator s c rest pos :
  pos ≤ String.length s →
  (∀ i, pos ≤ i → String.get i s ≠ Some c) →
  StdString.find (s +:+ String c rest) c pos = Some (String.length s).
Proof.
  revert pos. induction s as [|a s IH]; intros pos Hpos Hs.
  - cbn in Hpos. assert (pos = 0) as -> by lia.
    rewrite append_nil_l. cbn [StdString.find]. by rewrite decide_True.
  - rewrite append_cons. cbn [StdString.find String.length].
    destruct pos as [|pos].
    + rewrite decide_False.
      * rewrite (IH 0); [done|lia|]. intros i _. apply (Hs (S i)). lia.
      * intros ->. by apply (Hs 0).
    + rewrite (IH pos); [done|cbn in Hpos; lia|].
      intros i Hi. apply (Hs (S i)). lia.
Qed.

Section ResourceServerFacts.
Context `{Platform}.

(** A request path [segment/rest] is cut at the slash. *)
Lemma path_split segment rest :
  segment ≠ EmptyString →
  no_slash_from 1 segment →
  let path := segment +:+ "/" +:+ rest in
  StdString.find path "/" 1 = Some (String.length segment) ∧
  StdString.substr_n path 0 (String.length segment) = Ok segment ∧
  StdString.substr_n path (String.length segment + 1) (String.length path)
    = Ok rest.
Proof.
  intros Hne Hslash path. subst path.
  assert (1 ≤ String.length segment) by (destruct segment; cbn; [done|lia]).
  split; [by apply find_separator|].
  unfold StdString.substr_n. rewrite !length_append.
  rewrite !decide_True by (cbn; lia). cbn [StdString.drop].
  rewrite take_app_length. split; [done|].
  replace (String.length segment + 1)
    with (String.length (segment +:+ "/")) at 1
    by (rewrite length_append; reflexivity).
  rewrite <- (append_assoc segment "/" rest), drop_app_length.
  rewrite take_all; [done|lia].
Qed.

Lemma starts_with_longer s t :
  StdString.starts_with s t = true → s ≠ t →
  String.length t < String.length s.
Proof.
  intros Hsw Hne. apply starts_with_app in Hsw.
  destruct (StdString.drop (String.length t) s) as [|a d] eqn:Hd.
  - rewrite append_nil_r in Hsw. done.
  - rewrite Hsw, length_append. cbn. lia.
Qed.

(** What the handler does with a request path [segment/rest], case by case.
    The resource below the reserved segment is the path from its ninth
    character on ([sizeof] counts the NUL of the literal); a path that is
    the reserved segment and nothing more has no ninth position, and
    [substr] throws. *)
Lemma handleRmdOutputRequest_cases request segment rest :
  pathAfterPrefix request kRmdOutputLocation = segment +:+ "/" +:+ rest →
  segment ≠ EmptyString →
  no_slash_from 1 segment →
  let outputFile := urlDecode segment in
  let outputFilePath := resolveAliasedPath outputFile in
  handleRmdOutputRequest request =
    if exists_ outputFilePath then
      if decide (rest = EmptyString) then
        Ok [setNoCacheHeaders; setFile outputFilePath MathjaxFilter_new]
      else if StdString.starts_with rest kMathjaxSegment then
        if decide (rest = kMathjaxSegment) then Throw std_out_of_range
        else Ok [setCacheableFile
                   (complete mathJaxDirectory (StdString.drop 8 rest))]
      else Ok [setCacheableFile (childPath (parent outputFilePath) rest)]
    else Ok [setError NotFound (outputFile +:+ " not found")].
Proof.
  intros Hpath Hne Hslash outputFile outputFilePath.
  destruct (path_split segment rest Hne Hslash) as (Hfind & Hseg & Hrest).
  unfold handleRmdOutputRequest. rewrite Hpath, Hfind, Hseg.
  cbn [mbind Result_bind]. fold outputFile. fold outputFilePath.
  destruct (exists_ outputFilePath); [|reflexivity]. cbn [negb].
  rewrite Hrest. cbn [mbind Result_bind].
  destruct (decide (rest = EmptyString)); [reflexivity|].
  destruct (StdString.starts_with rest kMathjaxSegment) eqn:Hsw;
    [|reflexivity].
  unfold StdString.substr, sizeof_kMathjaxSegment.
  destruct (decide (rest = kMathjaxSegment)) as [->|Hm]; [reflexivity|].
  apply starts_with_longer in Hsw; [|done].
  rewrite decide_True by (cbn in *; lia). reflexivity.
Qed.

(** C10. A request path with no slash at or after offset 1 is answered
    with status 404 and the body [No output file found]; and that whatever
    the URL decoder, the alias resolution and the disk are: none of them has
    a part in the answer. *)
Theorem no_separator_not_found request :
  no_slash_from 1 (pathAfterPrefix request kRmdOutputLocation) →
  ∀ decoder resolver disk,
    handleRmdOutputRequest (H := with_decoder_and_disk decoder resolver disk)
      request
    = Ok [setError NotFound "No output file found"].
Proof.
  intros Hslash decoder resolver disk.
  apply find_None in Hslash.
  unfold handleRmdOutputRequest. cbn [pathAfterPrefix with_decoder_and_disk].
  by rewrite Hslash.
Qed.

End ResourceServerFacts.

(** ** The theorems at concrete inputs *)

Module Examples.
Import Demo.

(** C1 on the demo platform: the first request is accepted and the job is
    at address 0; a request while that job runs is refused. *)
Lemma renderRmd_rejects_or_installs_witness :
  (∃ job s',
     renderRmd (H := unix) render_request initial_session
       = Ok (Success, Some (Jbool true), s') ∧
     let p := fresh (dom (objects (initial_session (H := unix)))) in
     objects (initial_session (H := unix)) !! p = None ∧
     s_pCurrentRender_ s' = Some p ∧
     objects s' !! p = Some job ∧
     targetFile_ job = "/home/u/doc.Rmd" ∧
     sourceLine_ job = 3%Z ∧
     encoding_ job = "UTF-8" ∧
     ∀ q, q ≠ p → objects s' !! q = objects (initial_session (H := unix)) !! q) ∧
  renderRmd (H := unix) render_request (busy_session unix "/home/u/doc.Rmd")
    = Ok (Success, Some (Jbool false), busy_session unix "/home/u/doc.Rmd").
Proof.
  split.
  - apply (renderRmd_rejects_or_installs (H := unix) render_request
             initial_session "/home/u/doc.Rmd" 3%Z "UTF-8"); reflexivity.
  - apply (renderRmd_rejects_or_installs (H := unix) render_request
             (busy_session unix "/home/u/doc.Rmd")
             "/home/u/doc.Rmd" 3%Z "UTF-8"); reflexivity.
Defined.

(** C2 on the demo platform: exit status 0 and the named file on disk. *)
Lemma completion_succeeded_iff_witness :
  ∃ c' resultJson,
    onRenderCompleted (H := unix) 0 "UTF-8" output_with_marker
      (doc_job unix "/home/u/doc.Rmd") = Ok ((), c') ∧
    clientEvents c' = [completed_event resultJson] ∧
    resultJson !! "succeeded" = Some (Jbool true).
Proof.
  destruct (completion_succeeded_iff (H := unix)
              (doc_job unix "/home/u/doc.Rmd") 0 "UTF-8" output_with_marker)
    as (c' & resultJson & Hrun & Hevents & _ & _ & Hiff).
  - eexists. reflexivity.
  - intros formatName targetFile sourceLine resultJson. reflexivity.
  - exists c', resultJson. split; [exact Hrun|]. split; [exact Hevents|].
    apply Hiff; [reflexivity|reflexivity|].
    split; [reflexivity|]. eexists. split; reflexivity.
Defined.

(** C3 fails as stated: exit status 1, nothing on disk, and the marker
    line alone sets [outputFile_]. *)
Lemma outputFile_set_without_success :
  ¬ outputFile_set_iff_succeeded (H := empty_disk)
      (doc_job empty_disk "/home/u/doc.Rmd") 1 "UTF-8" output_with_marker.
Proof.
  intros Hclaim.
  destruct (onRenderCompleted (H := empty_disk) 1 "UTF-8" output_with_marker
              (doc_job empty_disk "/home/u/doc.Rmd")) as [[[] c']|] eqn:Hrun.
  - destruct (Hclaim c' Hrun) as [Hset _].
    vm_compute in Hrun. injection Hrun as <-.
    destruct Hset as [Hexit _]; [vm_compute; discriminate|discriminate Hexit].
  - vm_compute in Hrun. discriminate Hrun.
Qed.

(** C3 as the code has it, at the same input: the marker line sets the
    field. *)
Lemma outputFile_set_iff_marker_witness :
  ∃ c',
    onRenderCompleted (H := empty_disk) 1 "UTF-8" output_with_marker
      (doc_job empty_disk "/home/u/doc.Rmd") = Ok ((), c') ∧
    outputFile_ (this c') = "/home/u/doc.html".
Proof.
  apply (outputFile_set_iff_marker (H := empty_disk)
           (doc_job empty_disk "/home/u/doc.Rmd") 1 "UTF-8"
           output_with_marker).
  eexists. reflexivity.
Defined.

(** C4 at a name that starts with a space.  R reports the file
    [ doc.html]; trimming at the end only keeps that name, and the file is
    on disk.  The code trims at both ends, looks for [doc.html], does not
    find it, and reports the render as failed. *)
Theorem leading_space_of_name_lost :
  marker_line output_with_spaced_name
    = Some "Output created:  doc.html" ∧
  named_file_trimmed_right (H := spaced_name) "/home/u/doc.Rmd"
    "Output created:  doc.html" = "/home/u/ doc.html" ∧
  exists_ (Platform := spaced_name) "/home/u/ doc.html" = true ∧
  ∃ c' resultJson,
    onRenderCompleted (H := spaced_name) 0 "UTF-8" output_with_spaced_name
      (doc_job spaced_name "/home/u/doc.Rmd") = Ok ((), c') ∧
    outputFile_ (this c') = "/home/u/doc.html" ∧
    last (clientEvents c') = Some (completed_event resultJson) ∧
    resultJson !! "succeeded" = Some (Jbool false).
Proof.
  repeat (split; [vm_compute; reflexivity|]).
  destruct (onRenderCompleted (H := spaced_name) 0 "UTF-8"
              output_with_spaced_name (doc_job spaced_name "/home/u/doc.Rmd"))
    as [[[] c']|] eqn:Hrun; vm_compute in Hrun; [|discriminate Hrun].
  injection Hrun as <-.
  eexists _, _. split; [reflexivity|].
  split; [reflexivity|]. split; [reflexivity|].
  vm_compute. reflexivity.
Qed.

(** C5 at the path that is the reserved segment and nothing more: the
    handler throws and sets no response. *)
Theorem bare_mathjax_segment_throws :
  pathAfterPrefix (Platform := unix)
    "/rmd_output/%252Fhome%252Fu%252Fdoc.html/mathjax" kRmdOutputLocation
    = "%2Fhome%2Fu%2Fdoc.html/mathjax" ∧
  exists_ (Platform := unix) "/home/u/doc.html" = true ∧
  handleRmdOutputRequest (H := unix)
    "/rmd_output/%252Fhome%252Fu%252Fdoc.html/mathjax"
    = Throw std_out_of_range.
Proof. repeat split; reflexivity. Qed.

(** C6 fails as stated in desktop mode: the configuration script comes
    out before the configuration comment. *)
Lemma config_script_inserted :
  ¬ only_script_line_changed (H := desktop) page_without_math "</body>".
Proof. intros Hclaim. vm_compute in Hclaim. discriminate Hclaim. Qed.

(** C6 as the code has it, on a page with inline math in server mode. *)
Lemma rewriter_output_witness :
  (do_filter (H := unix) page_with_math "</body>" MathjaxFilter_new).1
    = rewritten_text (emitted (H := unix)) page_with_math "</body>" ∧
  only_script_line_changed (H := unix) page_with_math "</body>".
Proof.
  destruct (rewriter_output (H := unix) page_with_math "</body>")
    as [Hout Hmode].
  split; [exact Hout|]. apply Hmode. right.
  intros Hdesktop. vm_compute in Hdesktop. discriminate Hdesktop.
Defined.

(** C7 fails as stated in a build for Windows: three passes. *)
Lemma outputUrl_encoded_thrice :
  ¬ outputUrl_encoded_twice (H := windows)
      (rendered_job windows "/home/u/doc.Rmd" "/home/u/doc.html") true.
Proof.
  intros Hclaim.
  destruct (terminate (H := windows) true
              (rendered_job windows "/home/u/doc.Rmd" "/home/u/doc.html"))
    as [[[] c']|] eqn:Hrun.
  - pose proof Hrun as Hvalue. vm_compute in Hvalue. injection Hvalue as <-.
    pose proof (Hclaim _ _ Hrun eq_refl) as Hurl.
    vm_compute in Hurl. discriminate Hurl.
  - vm_compute in Hrun. discriminate Hrun.
Qed.

(** C7 as the code has it: three passes for Windows, two otherwise. *)
Lemma outputUrl_encoded_per_build_witness :
  (∃ c' resultJson,
     terminate (H := windows) true
       (rendered_job windows "/home/u/doc.Rmd" "/home/u/doc.html")
       = Ok ((), c') ∧
     last (clientEvents c') = Some (completed_event resultJson) ∧
     resultJson !! "output_url"
       = Some (Jstr "rmd_output/%25252Fhome%25252Fu%25252Fdoc.html/")) ∧
  (∃ c' resultJson,
     terminate (H := unix) true
       (rendered_job unix "/home/u/doc.Rmd" "/home/u/doc.html")
       = Ok ((), c') ∧
     last (clientEvents c') = Some (completed_event resultJson) ∧
     resultJson !! "output_url"
       = Some (Jstr "rmd_output/%252Fhome%252Fu%252Fdoc.html/")).
Proof.
  split.
  - apply (outputUrl_encoded_per_build (H := windows)
             (rendered_job windows "/home/u/doc.Rmd" "/home/u/doc.html")
             true).
    + eexists. reflexivity.
    + intros formatName targetFile sourceLine resultJson. reflexivity.
  - apply (outputUrl_encoded_per_build (H := unix)
             (rendered_job unix "/home/u/doc.Rmd" "/home/u/doc.html")
             true).
    + eexists. reflexivity.
    + intros formatName targetFile sourceLine resultJson. reflexivity.
Defined.

(** C8 on the platform without an R binary. *)
Lemma launch_failure_reported_witness :
  ∃ s' job startedJson resultJson,
    renderRmd (H := without_R) render_request initial_session
      = Ok (Success, Some (Jbool true), s') ∧
    eventQueue s' =
      [mkClientEvent kRmdRenderStarted startedJson;
       mkClientEvent kRmdRenderOutput
         (compileOutputAsJson (Platform := without_R) 1
            "Error rendering R Markdown for /home/u/doc.Rmd R not found");
       completed_event resultJson] ∧
    resultJson !! "succeeded" = Some (Jbool false) ∧
    resultJson !! "output_file" = Some (Jstr EmptyString) ∧
    s_pCurrentRender_ s' = Some 0 ∧
    objects s' !! 0 = Some job ∧
    isRunning_ job = false ∧
    outputFile_ job = EmptyString ∧
    processes s' = [] ∧
    isRenderRunning s' = false ∧
    ∀ q r, objects (initial_session (H := without_R)) !! q = Some r →
           objects s' !! q = Some r.
Proof.
  apply (launch_failure_reported (H := without_R) render_request
           initial_session "/home/u/doc.Rmd" 3%Z "UTF-8");
    try reflexivity;
    intros formatName targetFile sourceLine resultJson; reflexivity.
Defined.

(** C9 on the demo platform, with a job running and with none. *)
Lemma terminateRenderRmd_sets_flag_witness :
  (∃ s', terminateRenderRmd (H := unix) (busy_session unix "/home/u/doc.Rmd")
           = Ok (Success, s')) ∧
  (∃ s', terminateRenderRmd (H := unix) initial_session = Ok (Success, s')).
Proof.
  split.
  - destruct (terminateRenderRmd_sets_flag (H := unix)
                (busy_session unix "/home/u/doc.Rmd")) as (s' & Hs' & _).
    exists s'. exact Hs'.
  - destruct (terminateRenderRmd_sets_flag (H := unix) initial_session)
      as (s' & Hs' & _).
    exists s'. exact Hs'.
Defined.

(** C10 on the demo platform: a path with no slash. *)
Lemma no_separator_not_found_witness :
  handleRmdOutputRequest
    (H := with_decoder_and_disk (H := unix) (λ s, s) (λ s, s) (λ _, true))
    "/rmd_output/doc.html"
  = Ok [setError NotFound "No output file found"].
Proof.
  apply (no_separator_not_found (H := unix) "/rmd_output/doc.html").
  intros i Hi.
  exact (proj1 (find_None "doc.html" "/"%char 1) eq_refl i Hi).
Defined.

(** A whole render on the demo platform: the request is accepted, the
    program writes its output and exits with status 0, and the job ends with
    its output file on disk. *)
Example render_from_request_to_completion :
  let s1 := after_request in
  let s2 := after_callback 0 (cb_onStdout output_with_marker) s1 in
  let s3 := after_callback 0 (cb_onExit 0) s2 in
  isRenderRunning s1 = true ∧
  event_type <$> eventQueue s1 = [kRmdRenderStarted] ∧
  pAllOutput <$> processes s2 = [output_with_marker] ∧
  isRenderRunning s3 = false ∧
  event_type <$> eventQueue s3
    = [kRmdRenderStarted; kRmdRenderOutput; kRmdRenderCompleted] ∧
  hasOutput (H := unix) <$> objects s3 !! 0 = Some true ∧
  processes s3 = [].
Proof.
  vm_compute.
  repeat match goal with |- _ ∧ _ => split end; reflexivity.
Qed.

End Examples.

(** * Further properties *)

(** ** Sessions step by step *)

Section StepFacts.
Context `{Platform}.

Lemma terminate_Ok_started succeeded c x :
  terminate succeeded c = Ok x → started (this c).
Proof.
  unfold terminate, mbind, M_bind, modify_this, get_this, lift, json_index,
    started. cbn.
  destruct (outputFormat_ (this c) !! "format_name") as [[| | |name|]|];
    cbn; try discriminate. eauto.
Qed.

Lemma job_keeps_refl r : job_keeps r r.
Proof. by repeat split. Qed.

Lemma job_keeps_trans r1 r2 r3 :
  job_keeps r1 r2 → job_keeps r2 r3 → job_keeps r1 r3.
Proof.
  intros (? & ? & ? & ? & ?) (? & ? & ? & ? & ?).
  repeat split; try congruence; auto.
Qed.

(** What a callback does to the session when it returns. *)
Lemma deliver_Ok i cb s continue s' :
  deliver i cb s = Some (Ok (continue, s')) →
  ∃ pr r r' events processes',
    processes s !! i = Some pr ∧
    objects s !! cb_this pr = Some r ∧
    s' = mkSession (<[cb_this pr := r']> (objects s)) (s_pCurrentRender_ s)
                   (eventQueue s ++ events) processes' ∧
    job_keeps r r' ∧
    (∀ pr', pr' ∈ processes' →
            ∃ pr0, pr0 ∈ processes s ∧ cb_this pr' = cb_this pr0).
Proof.
  unfold deliver. intros Hd.
  destruct (processes s !! i) as [pr|] eqn:Hpr; [|done]. cbn in Hd.
  destruct (objects s !! cb_this pr) as [r|] eqn:Hr; [|done]. cbn in Hd.
  injection Hd as Hd. exists pr, r.
  assert (∀ pr', pr' ∈ processes s →
            ∃ pr0, pr0 ∈ processes s ∧ cb_this pr' = cb_this pr0) as Hsame
    by eauto.
  destruct cb as [|output|output|exitStatus].
  - unfold onRenderContinue, mbind, M_bind, Result_bind, get_this, mret,
      M_ret in Hd. cbn in Hd. injection Hd as <- <-.
    exists r, [], (processes s). split_and!; [done|done| |apply job_keeps_refl|done].
    unfold commit; cbn. by rewrite !app_nil_r.
  - unfold onRenderOutput, enqueRenderOutput, mbind, M_bind, Result_bind,
      enqueClientEvent, mret, M_ret in Hd. cbn in Hd. injection Hd as <- <-.
    eexists r, _, _.
    split_and!; [done|done|reflexivity|apply job_keeps_refl|].
    intros pr' Hin. cbn in Hin. rewrite app_nil_r in Hin.
    apply list_elem_of_lookup in Hin as [j Hj].
    destruct (decide (j = i)) as [->|Hne].
    + rewrite list_lookup_insert_eq in Hj
        by (by eapply lookup_lt_Some). injection Hj as <-.
      exists pr. split; [|done]. by eapply list_elem_of_lookup_2.
    + rewrite list_lookup_insert_ne in Hj by done.
      apply Hsame. by eapply list_elem_of_lookup_2.
  - unfold onRenderOutput, enqueRenderOutput, mbind, M_bind, Result_bind,
      enqueClientEvent, mret, M_ret in Hd. cbn in Hd. injection Hd as <- <-.
    eexists r, _, _.
    split_and!; [done|done|reflexivity|apply job_keeps_refl|].
    intros pr' Hin. cbn in Hin. rewrite app_nil_r in Hin.
    apply list_elem_of_lookup in Hin as [j Hj].
    destruct (decide (j = i)) as [->|Hne].
    + rewrite list_lookup_insert_eq in Hj
        by (by eapply lookup_lt_Some). injection Hj as <-.
      exists pr. split; [|done]. by eapply list_elem_of_lookup_2.
    + rewrite list_lookup_insert_ne in Hj by done.
      apply Hsame. by eapply list_elem_of_lookup_2.
  - destruct (onRenderCompleted exitStatus (cb_encoding pr) (pAllOutput pr)
                (mkCtx (cb_this pr) r (eventQueue s) []))
      as [[[] c']|] eqn:Hrun; [|done].
    cbn in Hd. injection Hd as <- <-.
    assert (started r) as Hst.
    { unfold onRenderCompleted, mbind, M_bind, get_this in Hrun.
      rewrite scanOutput_spec in Hrun.
      destruct (marker_line (pAllOutput pr));
        by apply terminate_Ok_started in Hrun. }
    destruct (onRenderCompleted_spec exitStatus (cb_encoding pr)
                (pAllOutput pr) (mkCtx (cb_this pr) r (eventQueue s) []) Hst)
      as (formatName & resultJson & Hspec & _).
    rewrite Hspec in Hrun. injection Hrun as <-.
    eexists _, _, _.
    split_and!; [done|done|reflexivity|by repeat split|].
    intros pr' Hin. cbn in Hin. rewrite app_nil_r in Hin.
    apply Hsame. by eapply list_elem_of_delete_inv.
Qed.

(** A callback of a program whose job has been started always returns. *)
Lemma deliver_total i cb s pr r :
  processes s !! i = Some pr →
  objects s !! cb_this pr = Some r →
  started r →
  ∃ continue s', deliver i cb s = Some (Ok (continue, s')).
Proof.
  intros Hpr Hr Hst. unfold deliver. rewrite Hpr. cbn. rewrite Hr. cbn.
  destruct cb as [|output|output|exitStatus]; try by eexists _, _.
  destruct (onRenderCompleted_spec exitStatus (cb_encoding pr)
              (pAllOutput pr) (mkCtx (cb_this pr) r (eventQueue s) []) Hst)
    as (formatName & resultJson & -> & _).
  by eexists _, _.
Qed.

(** What [renderRmd] does to the session. *)
Lemma renderRmd_Ok request s error result s' :
  renderRmd request s = Ok (error, result, s') →
  s' = s ∨
  (isRenderRunning s = false ∧
   ∃ job events new,
     s' = mkSession (<[fresh (dom (objects s)) := job]> (objects s))
                    (Some (fresh (dom (objects s))))
                    (eventQueue s ++ events) (processes s ++ new) ∧
     started job ∧
     ∀ pr, pr ∈ new → cb_this pr = fresh (dom (objects s))).
Proof.
  unfold renderRmd.
  destruct (readParams (params request)) as [e [[file line] encoding]].
  destruct (is_error e); [intros [= <- <- <-]; by left|].
  destruct (isRenderRunning s) eqn:Hrun; [intros [= <- <- <-]; by left|].
  intros Hr. right. split; [done|].
  set (p := fresh (dom (objects s))) in *.
  set (c := mkCtx p (RenderRmd_new (resolveAliasedPath file) line)
              (eventQueue s) []) in *.
  unfold create_at in Hr. fold c in Hr.
  destruct (is_error rScriptPath.1) eqn:Herr.
  - destruct (start_launch_failure encoding c Herr)
      as (formatName & resultJson & Hstart & _).
    rewrite Hstart in Hr. cbn in Hr. injection Hr as <- <- <-.
    eexists _, _, []. split; [reflexivity|].
    split; [apply (job_at_launch_started encoding (this c))|].
    intros pr Hin. by apply elem_of_nil in Hin.
  - rewrite (start_launched encoding c Herr) in Hr. cbn in Hr.
    injection Hr as <- <- <-.
    eexists _, _, _. split; [reflexivity|].
    split; [apply (job_at_launch_started encoding (this c))|].
    intros pr Hin. destruct (is_error (runProgram_error _ _)).
    + by apply elem_of_nil in Hin.
    + apply list_elem_of_singleton in Hin as ->. reflexivity.
Qed.

(** [renderRmd] always returns. *)
Lemma renderRmd_total request s :
  ∃ error result s', renderRmd request s = Ok (error, result, s').
Proof.
  unfold renderRmd.
  destruct (readParams (params request)) as [e [[file line] encoding]].
  destruct (is_error e); [by eexists _, _, _|].
  destruct (isRenderRunning s); [by eexists _, _, _|].
  unfold create_at.
  destruct (start_total encoding
              (mkCtx (fresh (dom (objects s)))
                 (RenderRmd_new (resolveAliasedPath file) line)
                 (eventQueue s) [])) as (c' & -> & _).
  by eexists _, _, _.
Qed.

(** What [terminateRenderRmd] does to the session. *)
Lemma terminateRenderRmd_cases s :
  ∃ s', terminateRenderRmd s = Ok (Success, s') ∧
    ((isRenderRunning s = false ∧ s' = s) ∨
     ∃ p r, s_pCurrentRender_ s = Some p ∧ objects s !! p = Some r ∧
            isRunning_ r = true ∧
            s' = mkSession (<[p := set_terminationRequested_ true r]> (objects s))
                           (Some p) (eventQueue s) (processes s)).
Proof.
  unfold terminateRenderRmd.
  destruct (isRenderRunning s) eqn:Hrun.
  - apply isRenderRunning_true in Hrun as (p & r & Hp & Hr & Hrunning).
    rewrite Hp, Hr. cbn. eexists. split; [reflexivity|].
    right. exists p, r. split_and!; try done.
    unfold commit; cbn. by rewrite app_nil_r.
  - exists s. split; [done|]. by left.
Qed.

Lemma isRenderRunning_false_none s p r :
  running_in_slot s → isRenderRunning s = false →
  objects s !! p = Some r → isRunning_ r = false.
Proof.
  intros Hslot Hrun Hp. destruct (isRunning_ r) eqn:Hr; [|done].
  assert (isRenderRunning s = true) as Hyes; [|congruence].
  apply isRenderRunning_true. exists p, r. split_and!; try done.
  by apply (Hslot p r).
Qed.

(** A step keeps every job, its target, line and format, a raised
    termination flag, and a stopped job stopped. *)
Lemma step_keeps s s' p r :
  step s s' → objects s !! p = Some r →
  ∃ r', objects s' !! p = Some r' ∧ job_keeps r r'.
Proof.
  intros Hstep Hp. destruct Hstep as [request e res Hr|e Ht|i cb b Hd].
  - apply renderRmd_Ok in Hr as [->|(_ & job & events & new & -> & _)].
    + exists r. split; [done|apply job_keeps_refl].
    + exists r. split; [|apply job_keeps_refl]. cbn.
      rewrite lookup_insert_ne; [done|]. intros Heq.
      pose proof (is_fresh (dom (objects s))) as Hfresh.
      apply not_elem_of_dom in Hfresh. congruence.
  - destruct (terminateRenderRmd_cases s) as (s1 & Ht1 & Hcases).
    rewrite Ht1 in Ht. injection Ht as _ <-.
    destruct Hcases as [[_ ->]|(q & rq & Hq & Hrq & _ & ->)].
    + exists r. split; [done|apply job_keeps_refl].
    + cbn. destruct (decide (q = p)) as [->|Hne].
      * rewrite lookup_insert_eq. eexists. split; [done|].
        assert (rq = r) as -> by congruence. by repeat split.
      * rewrite lookup_insert_ne by done.
        exists r. split; [done|apply job_keeps_refl].
  - apply deliver_Ok in Hd
      as (pr & r0 & r' & events & procs & Hpr & Hr0 & -> & Hkeep & _).
    cbn. destruct (decide (cb_this pr = p)) as [<-|Hne].
    + rewrite lookup_insert_eq. exists r'. split; [done|].
      assert (r0 = r) as -> by congruence. done.
    + rewrite lookup_insert_ne by done.
      exists r. split; [done|apply job_keeps_refl].
Qed.

Lemma started_keeps r r' : job_keeps r r' → started r → started r'.
Proof. intros (_ & _ & Hf & _) [name Hn]. exists name. by rewrite Hf. Qed.

Lemma step_wf s s' : wf_session s → step s s' → wf_session s'.
Proof.
  intros (Hst & Hcb & Hslot) Hstep. split_and!.
  - intros p r' Hp.
    destruct Hstep as [request e res Hr|e Ht|i cb b Hd].
    + apply renderRmd_Ok in Hr as [->|(_ & job & events & new & -> & Hjob & _)];
        [by eapply Hst|]. cbn in Hp.
      destruct (decide (fresh (dom (objects s)) = p)) as [<-|Hne].
      * rewrite lookup_insert_eq in Hp. by injection Hp as <-.
      * rewrite lookup_insert_ne in Hp by done. by eapply Hst.
    + destruct (terminateRenderRmd_cases s) as (s1 & Ht1 & Hcases).
      rewrite Ht1 in Ht. injection Ht as _ <-.
      destruct Hcases as [[_ ->]|(q & rq & Hq & Hrq & _ & ->)];
        [by eapply Hst|]. cbn in Hp.
      destruct (decide (q = p)) as [->|Hne].
      * rewrite lookup_insert_eq in Hp. injection Hp as <-.
        by apply (Hst p rq).
      * rewrite lookup_insert_ne in Hp by done. by eapply Hst.
    + apply deliver_Ok in Hd
        as (pr & r0 & r1 & events & procs & Hpr & Hr0 & -> & Hkeep & _).
      cbn in Hp. destruct (decide (cb_this pr = p)) as [<-|Hne].
      * rewrite lookup_insert_eq in Hp. injection Hp as <-.
        eapply started_keeps; [exact Hkeep|]. by eapply Hst.
      * rewrite lookup_insert_ne in Hp by done. by eapply Hst.
  - intros pr' Hin.
    destruct Hstep as [request e res Hr|e Ht|i cb b Hd].
    + apply renderRmd_Ok in Hr as [->|(_ & job & events & new & -> & _ & Hnew)];
        [by apply Hcb|]. cbn in *.
      apply elem_of_app in Hin as [Hin|Hin].
      * apply lookup_insert_is_Some'. right. by apply Hcb.
      * rewrite (Hnew _ Hin). apply lookup_insert_is_Some'. by left.
    + destruct (terminateRenderRmd_cases s) as (s1 & Ht1 & Hcases).
      rewrite Ht1 in Ht. injection Ht as _ <-.
      destruct Hcases as [[_ ->]|(q & rq & Hq & Hrq & _ & ->)];
        [by apply Hcb|]. cbn in *.
      apply lookup_insert_is_Some'. right. by apply Hcb.
    + apply deliver_Ok in Hd
        as (pr & r0 & r1 & events & procs & Hpr & Hr0 & -> & _ & Hprocs).
      cbn in *. destruct (Hprocs _ Hin) as (pr0 & Hin0 & ->).
      apply lookup_insert_is_Some'. right. by apply Hcb.
  - intros p r' Hp Hrunning.
    destruct Hstep as [request e res Hr|e Ht|i cb b Hd].
    + apply renderRmd_Ok in Hr
        as [->|(Hidle & job & events & new & -> & _ & _)];
        [by eapply Hslot|]. cbn in *.
      destruct (decide (fresh (dom (objects s)) = p)) as [<-|Hne]; [done|].
      rewrite lookup_insert_ne in Hp by done.
      pose proof (isRenderRunning_false_none s p r' Hslot Hidle Hp).
      congruence.
    + destruct (terminateRenderRmd_cases s) as (s1 & Ht1 & Hcases).
      rewrite Ht1 in Ht. injection Ht as _ <-.
      destruct Hcases as [[_ ->]|(q & rq & Hq & Hrq & _ & ->)];
        [by eapply Hslot|]. cbn in *.
      destruct (decide (q = p)) as [->|Hne]; [done|].
      rewrite lookup_insert_ne in Hp by done. rewrite <- Hq.
      by eapply Hslot.
    + apply deliver_Ok in Hd
        as (pr & r0 & r1 & events & procs & Hpr & Hr0 & -> & Hkeep & _).
      cbn in *. destruct (decide (cb_this pr = p)) as [<-|Hne].
      * rewrite lookup_insert_eq in Hp. injection Hp as <-.
        apply (Hslot _ r0 Hr0).
        destruct Hkeep as (_ & _ & _ & Hstop & _).
        destruct (isRunning_ r0); [done|]. rewrite Hstop in Hrunning; done.
      * rewrite lookup_insert_ne in Hp by done. by eapply Hslot.
Qed.

Lemma initial_wf : wf_session initial_session.
Proof.
  split_and!.
  - intros p r Hp. cbn in Hp. by rewrite lookup_empty in Hp.
  - intros pr Hin. by apply elem_of_nil in Hin.
  - intros p r Hp. cbn in Hp. by rewrite lookup_empty in Hp.
Qed.

Lemma reachable_wf s : reachable s → wf_session s.
Proof.
  unfold reachable. intros Hreach.
  apply rtc_ind_r with (x := initial_session) (P := wf_session) in Hreach;
    [done|apply initial_wf|].
  intros s1 s2 _ Hstep Hwf. by eapply step_wf.
Qed.

End StepFacts.

(** ** What holds in every session the module can be in *)

Section Invariants.
Context `{Platform}.

(** X1. At most one render runs at a time: in every reachable session a
    running job is the one in the current-job slot, so two running jobs are
    the same job. *)
Theorem one_render_at_a_time s :
  reachable s →
  running_in_slot s ∧
  ∀ p q rp rq,
    objects s !! p = Some rp → isRunning_ rp = true →
    objects s !! q = Some rq → isRunning_ rq = true →
    p = q.
Proof.
  intros Hreach. destruct (reachable_wf s Hreach) as (_ & _ & Hslot).
  split; [exact Hslot|]. intros p q rp rq Hp Hrp Hq Hrq.
  pose proof (Hslot p rp Hp Hrp). pose proof (Hslot q rq Hq Hrq). congruence.
Qed.

(** X2. Nothing in the render pipeline throws or meets a dead job: in every
    reachable session each callback of each program held by the process
    supervisor returns, a start request returns and a terminate request
    returns. *)
Theorem calls_always_return s :
  reachable s →
  (∀ i pr cb, processes s !! i = Some pr →
     ∃ continue s', deliver i cb s = Some (Ok (continue, s'))) ∧
  (∀ request, ∃ error result s',
     renderRmd request s = Ok (error, result, s')) ∧
  (∃ s', terminateRenderRmd s = Ok (Success, s')).
Proof.
  intros Hreach. destruct (reachable_wf s Hreach) as (Hst & Hcb & _).
  split_and!.
  - intros i pr cb Hpr.
    destruct (Hcb pr) as [r Hr]; [by eapply list_elem_of_lookup_2|].
    eapply deliver_total; [done..|]. by eapply Hst.
  - intros request. apply renderRmd_total.
  - destruct (terminateRenderRmd_cases s) as (s' & Hs' & _). by exists s'.
Qed.

(** X3. Whatever happens to the session later, a job stays in the store
    with its target file, source line and output format; a job that has
    stopped does not run again, and a termination request is not taken
    back. *)
Theorem job_fields_stable s s' p r :
  rtc step s s' →
  objects s !! p = Some r →
  ∃ r', objects s' !! p = Some r' ∧ job_keeps r r'.
Proof.
  intros Hsteps. revert r. induction Hsteps as [s|s1 s2 s3 Hstep _ IH];
    intros r Hp.
  - exists r. split; [done|apply job_keeps_refl].
  - destruct (step_keeps s1 s2 p r Hstep Hp) as (r2 & Hp2 & Hk12).
    destruct (IH r2 Hp2) as (r3 & Hp3 & Hk23).
    exists r3. split; [done|]. by eapply job_keeps_trans.
Qed.

End Invariants.

(** ** Launches that fail, termination requests, captured output *)

Section PipelineFacts.
Context `{Platform}.

Lemma orphaned_running p s : orphaned p s → isRenderRunning s = true.
Proof.
  intros (Hslot & (r & Hr & Hrun) & _). apply isRenderRunning_true. eauto.
Qed.

(** X4. When the process supervisor refuses the program ([runProgram]
    returns an error, which [performRender] does not look at), the request is
    still answered [true]; only the started event is queued, with no error
    output and no completion; no program is registered; and the new job sits
    in the slot, running, with no callback that could ever end it. *)
Theorem refused_launch_goes_unreported request s file line encoding :
  readParams (params request) = (Success, (file, line, encoding)) →
  isRenderRunning s = false →
  callbacks_bound s →
  is_error rScriptPath.1 = false →
  let c := mkCtx (fresh (dom (objects s)))
             (RenderRmd_new (resolveAliasedPath file) line) (eventQueue s) [] in
  is_error (runProgram_error (executable (render_process encoding c))
                             (args (render_process encoding c))) = true →
  ∃ s',
    renderRmd request s = Ok (Success, Some (Jbool true), s') ∧
    eventQueue s' =
      eventQueue s ++ [started_event (job_at_launch encoding (this c))] ∧
    processes s' = processes s ∧
    orphaned (fresh (dom (objects s))) s'.
Proof.
  intros Hparams Hidle Hcb Herr c Hrefused.
  unfold renderRmd. rewrite Hparams, Hidle. cbn [is_error].
  unfold create_at. fold c. rewrite (start_launched encoding c Herr).
  rewrite Hrefused. cbn. eexists. split; [reflexivity|].
  unfold commit; cbn. rewrite !app_nil_r.
  split_and!; try done. split_and!; cbn.
  - done.
  - eexists. rewrite lookup_insert_eq. split; [done|]. reflexivity.
  - intros pr Hin Heq. destruct (Hcb pr Hin) as [r Hr].
    pose proof (is_fresh (dom (objects s))) as Hfresh.
    apply not_elem_of_dom in Hfresh. congruence.
Qed.

Lemma orphaned_step p s s' : orphaned p s → step s s' → orphaned p s'.
Proof.
  intros Horph Hstep. pose proof (orphaned_running p s Horph) as Hrun.
  destruct Horph as (Hslot & (r & Hr & Hrunning) & Hnone).
  destruct Hstep as [request e res Hrender|e Ht|i cb b Hd].
  - apply renderRmd_Ok in Hrender as [->|[Hidle _]]; [|congruence].
    split_and!; eauto.
  - destruct (terminateRenderRmd_cases s) as (s1 & Ht1 & Hcases).
    rewrite Ht1 in Ht. injection Ht as _ <-.
    destruct Hcases as [[_ ->]|(q & rq & Hq & Hrq & _ & ->)];
      [split_and!; eauto|].
    assert (q = p) as -> by congruence. assert (rq = r) as -> by congruence.
    split_and!; cbn; [done| |done].
    eexists. rewrite lookup_insert_eq. split; [done|]. exact Hrunning.
  - apply deliver_Ok in Hd
      as (pr & r0 & r1 & events & procs & Hpr & Hr0 & -> & _ & Hprocs).
    assert (cb_this pr ≠ p) as Hne
      by (apply Hnone; by eapply list_elem_of_lookup_2).
    split_and!; cbn; [done| |].
    + exists r. by rewrite lookup_insert_ne.
    + intros pr' Hin. destruct (Hprocs _ Hin) as (pr0 & Hin0 & ->).
      by apply Hnone.
Qed.

(** X5. Such a job blocks the supervisor for good: whatever requests and
    callbacks follow, it stays in the slot, running and without callbacks,
    and every later start request is refused. *)
Theorem orphaned_job_blocks_every_start p s s' :
  orphaned p s →
  rtc step s s' →
  orphaned p s' ∧
  ∀ request file line encoding,
    readParams (params request) = (Success, (file, line, encoding)) →
    renderRmd request s' = Ok (Success, Some (Jbool false), s').
Proof.
  intros Horph Hsteps.
  assert (orphaned p s') as Horph'.
  { induction Hsteps as [s|s1 s2 s3 Hstep _ IH]; [done|].
    apply IH. by eapply orphaned_step. }
  split; [done|]. intros request file line encoding Hparams.
  unfold renderRmd. rewrite Hparams. cbn [is_error].
  by rewrite (orphaned_running p s' Horph').
Qed.

(** X6. A terminate request is advisory: while a render runs it raises the
    flag and nothing more.  No event is queued, the programs stay, the render
    still counts as running, so a start request straight after it is still
    refused; and a second terminate request changes nothing. *)
Theorem termination_is_advisory s :
  isRenderRunning s = true →
  ∃ s',
    terminateRenderRmd s = Ok (Success, s') ∧
    isRenderRunning s' = true ∧
    eventQueue s' = eventQueue s ∧
    processes s' = processes s ∧
    terminateRenderRmd s' = Ok (Success, s') ∧
    ∀ request file line encoding,
      readParams (params request) = (Success, (file, line, encoding)) →
      renderRmd request s' = Ok (Success, Some (Jbool false), s').
Proof.
  intros Hrun.
  destruct (terminateRenderRmd_cases s) as (s' & Hs' & Hcases).
  destruct Hcases as [[Hidle _]|(p & r & Hp & Hr & Hrunning & ->)];
    [congruence|].
  eexists. split; [exact Hs'|].
  assert (isRenderRunning
            (mkSession (<[p := set_terminationRequested_ true r]> (objects s))
               (Some p) (eventQueue s) (processes s)) = true) as Hrun'.
  { unfold isRenderRunning; cbn. by rewrite lookup_insert_eq. }
  split_and!; try done.
  - unfold terminateRenderRmd. rewrite Hrun'. cbn.
    rewrite lookup_insert_eq. cbn. unfold commit; cbn.
    by rewrite insert_insert_eq, app_nil_r.
  - intros request file line encoding Hparams.
    unfold renderRmd. rewrite Hparams. cbn [is_error]. by rewrite Hrun'.
Qed.

Lemma set_pAllOutput_id pr : set_pAllOutput (pAllOutput pr) pr = pr.
Proof. by destruct pr. Qed.

(** Delivering chunks one after the other. *)
Lemma deliver_chunks_spec chunks i s pr :
  processes s !! i = Some pr →
  is_Some (objects s !! cb_this pr) →
  ∃ s',
    deliver_chunks i chunks s = Some (Ok s') ∧
    processes s' =
      <[i := set_pAllOutput
               (pAllOutput pr +:+ concat_strings (chunk_text <$> chunks)) pr]>
        (processes s) ∧
    eventQueue s' = eventQueue s ++ (chunk_event <$> chunks) ∧
    objects s' = objects s ∧
    s_pCurrentRender_ s' = s_pCurrentRender_ s.
Proof.
  revert s pr. induction chunks as [|ch chunks IH]; intros s pr Hpr [r Hr].
  - exists s. cbn. rewrite append_nil_r, set_pAllOutput_id, app_nil_r.
    split_and!; try done. by rewrite list_insert_id.
  - cbn [deliver_chunks].
    set (pr1 := set_pAllOutput (pAllOutput pr +:+ chunk_text ch) pr).
    set (s1 := mkSession (objects s) (s_pCurrentRender_ s)
                 (eventQueue s ++ [chunk_event ch])
                 (<[i := pr1]> (processes s))).
    assert (deliver i (chunk_callback ch) s = Some (Ok (true, s1))) as Hd.
    { unfold deliver. rewrite Hpr. cbn. rewrite Hr. cbn.
      destruct ch; cbn;
        unfold onRenderOutput, enqueRenderOutput, mbind, M_bind, Result_bind,
          enqueClientEvent, mret, M_ret; cbn;
        unfold set_process, commit; cbn;
        by rewrite app_nil_r, insert_id. }
    rewrite Hd.
    assert (processes s1 !! i = Some pr1) as Hpr1.
    { cbn. apply list_lookup_insert_eq. by eapply lookup_lt_Some. }
    destruct (IH s1 pr1 Hpr1) as (s' & Hrun & Hprocs & Hevents & Hobj & Hslot);
      [by exists r|].
    exists s'. split; [exact Hrun|]. rewrite Hprocs, Hevents, Hobj, Hslot.
    cbn. rewrite list_insert_insert_eq, <- app_assoc, append_assoc.
    done.
Qed.


(** X7. Output is buffered in arrival order: after the chunks read from
    stdout and stderr have been delivered, the shared buffer of the program
    holds what it held before followed by the chunks in the order they came,
    both streams interleaved; one output event per chunk has been queued, in
    the same order, normal for stdout and error for stderr; the jobs and the
    slot are as before. *)
Theorem output_is_buffered_in_arrival_order chunks i s pr :
  processes s !! i = Some pr →
  is_Some (objects s !! cb_this pr) →
  ∃ s',
    deliver_chunks i chunks s = Some (Ok s') ∧
    processes s' =
      <[i := set_pAllOutput
               (pAllOutput pr +:+ concat_strings (chunk_text <$> chunks)) pr]>
        (processes s) ∧
    eventQueue s' = eventQueue s ++ (chunk_event <$> chunks) ∧
    objects s' = objects s ∧
    s_pCurrentRender_ s' = s_pCurrentRender_ s.
Proof. apply deliver_chunks_spec. Qed.

End PipelineFacts.

(** ** The marker scan on whole outputs *)

Lemma no_newline_cons a l :
  no_newline (String a l) → a ≠ "010"%char ∧ no_newline l.
Proof.
  intros Hl. split.
  - intros ->. by apply (Hl 0).
  - intros i. apply (Hl (S i)).
Qed.

Lemma lines_line_rest l rest :
  no_newline l → lines (l +:+ newline +:+ rest) = l :: lines rest.
Proof.
  induction l as [|a l IH]; intros Hl; [reflexivity|].
  apply no_newline_cons in Hl as [Ha Hl].
  rewrite append_cons. cbn [lines]. rewrite decide_False by done.
  by rewrite IH.
Qed.

Lemma lines_last_line l :
  no_newline l → l ≠ EmptyString → lines l = [l].
Proof.
  induction l as [|a l IH]; intros Hl Hne; [done|].
  apply no_newline_cons in Hl as [Ha Hl].
  cbn [lines]. rewrite decide_False by done.
  destruct l as [|b l]; [reflexivity|]. by rewrite IH.
Qed.

Lemma marked_nonempty l : marked l = true → l ≠ EmptyString.
Proof. by intros Hm ->. Qed.

Lemma drop_app_le n s t :
  n ≤ String.length s → StdString.drop n (s +:+ t) = StdString.drop n s +:+ t.
Proof.
  revert n. induction s as [|a s IH]; intros [|n] Hn; cbn in *;
    try (reflexivity || lia).
  rewrite append_cons. cbn. apply IH. lia.
Qed.

Lemma trim_right_all_space ws :
  all_space ws = true → StdString.trim_right ws = EmptyString.
Proof.
  induction ws as [|a ws IH]; [done|]. cbn.
  intros [Ha Hws]%andb_true_iff. by rewrite IH, Ha.
Qed.

Lemma trim_right_app_space s ws :
  all_space ws = true → StdString.trim_right (s +:+ ws) = StdString.trim_right s.
Proof.
  intros Hws. induction s as [|a s IH].
  - rewrite append_nil_l. by apply trim_right_all_space.
  - rewrite append_cons. cbn [StdString.trim_right]. by rewrite IH.
Qed.

Section ScanFacts.
Context `{Platform}.

Lemma marker_line_skips before stream :
  Forall (λ l, no_newline l ∧ marked l = false) before →
  marker_line (unlines before +:+ stream) = marker_line stream.
Proof.
  unfold marker_line, unlines.
  induction before as [|l before IH]; intros Hall; [reflexivity|].
  apply Forall_cons in Hall as [[Hl Hm] Hall].
  cbn [fmap list_fmap concat_strings]. rewrite !append_assoc.
  rewrite lines_line_rest by done. cbn [List.find]. rewrite Hm.
  by apply IH.
Qed.

(** X8. The scan takes the first line that starts with the marker and
    nothing after it: when the captured output is a run of whole lines that
    do not start with the marker, then a line that does, the job's output
    file is the file that line names, whatever follows the line and also
    when the line is the last and has no line end. *)
Theorem first_marker_line_wins before line after c exitStatus encoding :
  started (this c) →
  Forall (λ l, no_newline l ∧ marked l = false) before →
  no_newline line →
  marked line = true →
  (∃ c', onRenderCompleted exitStatus encoding
           (unlines before +:+ line +:+ newline +:+ after) c = Ok ((), c') ∧
         outputFile_ (this c') = named_file (targetFile_ (this c)) line) ∧
  (∃ c', onRenderCompleted exitStatus encoding
           (unlines before +:+ line) c = Ok ((), c') ∧
         outputFile_ (this c') = named_file (targetFile_ (this c)) line).
Proof.
  intros Hst Hbefore Hline Hmarked. split.
  - destruct (onRenderCompleted_spec exitStatus encoding
                (unlines before +:+ line +:+ newline +:+ after) c Hst)
      as (formatName & resultJson & Hrun & _).
    eexists. split; [exact Hrun|]. cbn.
    rewrite marker_line_skips by done. unfold marker_line.
    rewrite lines_line_rest by done. cbn [List.find]. by rewrite Hmarked.
  - destruct (onRenderCompleted_spec exitStatus encoding
                (unlines before +:+ line) c Hst)
      as (formatName & resultJson & Hrun & _).
    eexists. split; [exact Hrun|]. cbn.
    rewrite marker_line_skips by done. unfold marker_line.
    rewrite lines_last_line by (done || by apply marked_nonempty).
    cbn [List.find]. by rewrite Hmarked.
Qed.

(** X9. Whitespace at the end of the marker line does not change the file
    it names; in particular the carriage return of a CR-LF line end, which
    [getline] leaves on the line, is dropped. *)
Theorem trailing_whitespace_is_dropped targetFile line ws :
  marked line = true →
  all_space ws = true →
  named_file targetFile (line +:+ ws) = named_file targetFile line.
Proof.
  intros Hmarked Hws. unfold named_file, StdString.trim.
  apply starts_with_length in Hmarked.
  rewrite drop_app_le by done. by rewrite trim_right_app_space.
Qed.

(** X10. [start] always returns, and the started event is the first thing
    it queues and the only started event; the job then has a format with a
    name that is a string and with options.  When the R call that finds the
    format fails the render goes on all the same, with the empty name and
    null options. *)
Theorem started_event_comes_first encoding c :
  ∃ c' rest formatName,
    start encoding c = Ok ((), c') ∧
    clientEvents c' =
      clientEvents c ++ started_event (job_at_launch encoding (this c)) :: rest ∧
    Forall (λ e, event_type e ≠ kRmdRenderStarted) rest ∧
    outputFormat_ (this c') !! "format_name" = Some (Jstr formatName) ∧
    is_Some (outputFormat_ (this c') !! "format_options") ∧
    (is_error (default_output_format (absolutePath (targetFile_ (this c)))
                 encoding).1 = true →
     outputFormat_ (this c') !! "format_name" = Some (Jstr EmptyString) ∧
     outputFormat_ (this c') !! "format_options" = Some Jnull).
Proof.
  assert (∃ formatName,
            getOutputFormat (absolutePath (targetFile_ (this c))) encoding
              (outputFormat_ (this c)) !! "format_name"
            = Some (Jstr formatName) ∧
            is_Some (getOutputFormat (absolutePath (targetFile_ (this c)))
                       encoding (outputFormat_ (this c)) !! "format_options") ∧
            (is_error (default_output_format
                         (absolutePath (targetFile_ (this c))) encoding).1
               = true →
             getOutputFormat (absolutePath (targetFile_ (this c))) encoding
               (outputFormat_ (this c)) !! "format_name"
             = Some (Jstr EmptyString) ∧
             getOutputFormat (absolutePath (targetFile_ (this c))) encoding
               (outputFormat_ (this c)) !! "format_options" = Some Jnull))
    as (formatName & Hname & Hopts & Hfail).
  { unfold getOutputFormat.
    destruct (default_output_format _ encoding) as [error sexp]. cbn [fst].
    destruct (is_error error).
    - exists EmptyString. by simplify_map_eq.
    - destruct (getNamedListElement sexp "name") as [? formatName].
      destruct (getNamedListSEXP sexp "options") as [? ?].
      exists formatName. split_and!; [by simplify_map_eq| |done].
      rewrite lookup_insert_eq. by eexists. }
  destruct (is_error rScriptPath.1) eqn:Herr.
  - destruct (start_launch_failure encoding c Herr)
      as (fn & resultJson & Hstart & _).
    eexists _, _, formatName. split; [exact Hstart|]. cbn.
    split_and!; try done. repeat constructor; done.
  - eexists _, [], formatName.
    split; [exact (start_launched encoding c Herr)|]. cbn.
    split_and!; try done.
Qed.

(** X11. After the process has exited the job no longer runs, and
    [hasOutput] tells whether its output file exists; so a completion
    reported as succeeded leaves a job that has output. *)
Theorem succeeded_means_hasOutput c exitStatus encoding allOutput :
  started (this c) →
  ammendResults_keeps "succeeded" →
  ∃ c' resultJson,
    onRenderCompleted exitStatus encoding allOutput c = Ok ((), c') ∧
    last (clientEvents c') = Some (completed_event resultJson) ∧
    isRunning (this c') = false ∧
    hasOutput (this c') = exists_ (outputFile_ (this c')) ∧
    (resultJson !! "succeeded" = Some (Jbool true) →
     hasOutput (this c') = true).
Proof.
  intros Hst Hkeep.
  destruct (onRenderCompleted_spec exitStatus encoding allOutput c Hst)
    as (formatName & resultJson & Hrun & Hs & _).
  eexists _, _. split; [exact Hrun|]. cbn.
  split; [apply last_snoc|]. split; [done|]. split; [done|].
  rewrite Hkeep, Hs. intros [= Htrue].
  apply andb_true_iff in Htrue as [_ Hexists]. exact Hexists.
Qed.

End ScanFacts.

(** ** A render from the request to the completion *)

Section Lifecycle.
Context `{Platform}.

Lemma delete_inserted_last {A} (l : list A) (x y : A) :
  delete (length l) (<[length l := y]> (l ++ [x])) = l.
Proof.
  rewrite insert_app_r_alt by lia. rewrite Nat.sub_diag. cbn.
  rewrite (delete_middle l [] y). apply app_nil_r.
Qed.

(** X16. A whole render.  A start request accepted while the R binary is
    there and the process supervisor takes the program; then the output of
    the program, chunk by chunk; then its exit.  All three calls return.
    The events queued are, in this order, the started event, one output
    event per chunk, and the completion event; [succeeded] in it is true
    exactly when the exit status is zero and the file named by the first
    marker line of the chunks put together exists (with no marker line, when
    the unset path exists).  Afterwards the program is gone from the process
    supervisor and no render is running.  (The presentation add-on is taken
    not to touch [succeeded].) *)
Theorem render_from_request_to_completion_events
    request s file line encoding chunks exitStatus :
  readParams (params request) = (Success, (file, line, encoding)) →
  isRenderRunning s = false →
  is_error rScriptPath.1 = false →
  (∀ exe args, is_error (runProgram_error exe args) = false) →
  ammendResults_keeps "succeeded" →
  let i := length (processes s) in
  let allOutput := concat_strings (chunk_text <$> chunks) in
  let outputFile :=
    match marker_line allOutput with
    | Some line => named_file (resolveAliasedPath file) line
    | None => FilePath_new
    end in
  ∃ s1 s2 s3 startedEvent resultJson,
    renderRmd request s = Ok (Success, Some (Jbool true), s1) ∧
    deliver_chunks i chunks s1 = Some (Ok s2) ∧
    deliver i (cb_onExit exitStatus) s2 = Some (Ok (true, s3)) ∧
    event_type startedEvent = kRmdRenderStarted ∧
    eventQueue s3 =
      eventQueue s ++ [startedEvent] ++ (chunk_event <$> chunks) ++
      [completed_event resultJson] ∧
    resultJson !! "succeeded"
      = Some (Jbool (bool_decide (exitStatus = 0%Z) && exists_ outputFile)) ∧
    processes s3 = processes s ∧
    isRenderRunning s3 = false.
Proof.
  intros Hparams Hidle Herr Hlaunch Hkeep i allOutput outputFile.
  set (p := fresh (dom (objects s))).
  set (c := mkCtx p (RenderRmd_new (resolveAliasedPath file) line)
              (eventQueue s) []).
  set (job := job_at_launch encoding (this c)).
  set (pr := render_process encoding c).
  set (s1 := mkSession (<[p := job]> (objects s)) (Some p)
               (eventQueue s ++ [started_event job]) (processes s ++ [pr])).
  assert (renderRmd request s = Ok (Success, Some (Jbool true), s1)) as Hr.
  { unfold renderRmd. rewrite Hparams, Hidle. cbn [is_error].
    unfold create_at. fold p c. rewrite (start_launched encoding c Herr).
    rewrite Hlaunch. reflexivity. }
  assert (processes s1 !! i = Some pr) as Hpr
    by (by apply list_lookup_middle).
  assert (objects s1 !! cb_this pr = Some job) as Hjob
    by apply lookup_insert_eq.
  destruct (deliver_chunks_spec chunks i s1 pr Hpr)
    as (s2 & Hchunks & Hprocs & Hevents & Hobj & Hslot); [by eexists|].
  assert (started job) as Hst by apply (job_at_launch_started encoding (this c)).
  set (pr2 := set_pAllOutput
                (pAllOutput pr +:+ concat_strings (chunk_text <$> chunks)) pr)
    in *.
  destruct (onRenderCompleted_spec exitStatus encoding allOutput
              (mkCtx p job (eventQueue s2) []) Hst)
    as (formatName & resultJson & Hexit & Hs & _).
  eexists s1, s2, _, (started_event job),
    (ammendResults formatName (resolveAliasedPath file) line resultJson).
  split; [exact Hr|]. split; [exact Hchunks|].
  assert (processes s2 !! i = Some pr2) as Hpr2.
  { rewrite Hprocs. apply list_lookup_insert_eq. by eapply lookup_lt_Some. }
  split.
  { unfold deliver. rewrite Hpr2. cbn -[onRenderCompleted].
    rewrite Hobj. cbn -[onRenderCompleted].
    rewrite lookup_insert_eq. cbn -[onRenderCompleted].
    rewrite append_nil_l. unfold allOutput in Hexit.
    rewrite Hexit. reflexivity. }
  split; [reflexivity|].
  unfold remove_process, commit, isRenderRunning; cbn.
  rewrite Hevents, Hprocs, Hobj, Hslot. cbn.
  rewrite lookup_insert_eq, app_nil_r. cbn.
  split_and!.
  - by rewrite <- !app_assoc.
  - rewrite Hkeep. exact Hs.
  - apply delete_inserted_last.
  - reflexivity.
Qed.

End Lifecycle.

(** ** Documents without a loader line, and requests that get no answer *)

Lemma find_Some_split s c pos i :
  StdString.find s c pos = Some i →
  ∃ segment rest,
    s = segment +:+ String c rest ∧
    String.length segment = i ∧
    pos ≤ i ∧
    ∀ j, pos ≤ j → String.get j segment ≠ Some c.
Proof.
  revert pos i. induction s as [|a s IH]; intros pos i; cbn; [done|].
  destruct pos as [|pos].
  - destruct (decide (a = c)) as [->|Ha].
    + intros [= <-]. exists EmptyString, s. split_and!; try done.
    + destruct (StdString.find s c 0) as [k|] eqn:Hk; [|done].
      intros [= <-].
      destruct (IH 0 k Hk) as (segment & rest & -> & <- & _ & Hnone).
      exists (String a segment), rest. split_and!; try done; [lia|].
      intros [|j] _; cbn; [congruence|]. apply Hnone. lia.
  - destruct (StdString.find s c pos) as [k|] eqn:Hk; [|done].
    intros [= <-].
    destruct (IH pos k Hk) as (segment & rest & -> & <- & Hle & Hnone).
    exists (String a segment), rest. split_and!; try done; [cbn; lia|].
    intros [|j] Hj; cbn; [lia|]. apply Hnone. lia.
Qed.

Section MoreRewriterFacts.
Context `{Platform}.

(** X12. A document in which the pattern finds no loader line comes out as
    it went in: when every match is a math start token, or the configuration
    comment in a mode that adds nothing to it, the filter's output is the
    source text.  Afterwards the flag of the filter is up exactly when it was
    up before or a math start token was met. *)
Theorem documents_without_loader_pass_unchanged ms suffix f :
  Forall (λ pm, is_math_token pm.2 = true ∨
                (is_config_marker pm.2 = true ∧
                 (APPLE = true ∨ programMode ≠ kSessionProgramModeDesktop)))
         ms →
  do_filter ms suffix f =
    (source_text ms suffix,
     mkMathjaxFilter
       (hasMathjax_ f || existsb (λ pm, is_math_token pm.2) ms)).
Proof.
  unfold do_filter. revert f.
  induction ms as [|[prefix m] ms IH]; intros f Hall.
  - cbn. rewrite orb_false_r. by destruct f.
  - apply Forall_cons in Hall as [Hm Hall]. cbn [replace_matches].
    rewrite substitute_emitted.
    specialize (IH (mkMathjaxFilter (hasMathjax_ f || is_math_token m)) Hall).
    destruct (replace_matches ms _) as [dest f'].
    injection IH as Hdest ->. cbn [source_text existsb hasMathjax_ snd].
    rewrite <- Hdest, orb_assoc, !append_assoc. f_equal. f_equal.
    unfold emitted. cbn in Hm.
    destruct Hm as [->|[Hc Hmode]]; [done|].
    destruct (is_math_token m); [done|]. rewrite Hc.
    destruct Hmode as [->|Hmode]; [done|].
    by rewrite bool_decide_eq_false_2, andb_false_r.
Qed.

End MoreRewriterFacts.

Section MoreResourceServerFacts.
Context `{Platform}.

(** X13. The handler leaves a request without an answer, by an exception,
    in one case only: the artifact named by the first segment exists and the
    path after the separator is exactly the reserved segment [mathjax]. *)
Theorem handler_throws_only_on_bare_segment request :
  (∃ e, handleRmdOutputRequest request = Throw e) ↔
  ∃ segment,
    pathAfterPrefix request kRmdOutputLocation
      = segment +:+ "/" +:+ kMathjaxSegment ∧
    segment ≠ EmptyString ∧
    no_slash_from 1 segment ∧
    exists_ (resolveAliasedPath (urlDecode segment)) = true.
Proof.
  split.
  - intros [e Hthrow].
    destruct (StdString.find (pathAfterPrefix request kRmdOutputLocation)
                "/" 1) as [pos|] eqn:Hfind.
    + apply find_Some_split in Hfind
        as (segment & rest & Hpath & Hlen & Hpos & Hnone).
      assert (segment ≠ EmptyString) as Hne
        by (intros ->; cbn in Hlen; lia).
      rewrite (handleRmdOutputRequest_cases request segment rest Hpath Hne Hnone)
        in Hthrow.
      destruct (exists_ (resolveAliasedPath (urlDecode segment))) eqn:Hex;
        [|done].
      destruct (decide (rest = EmptyString)); [done|].
      destruct (StdString.starts_with rest kMathjaxSegment); [|done].
      destruct (decide (rest = kMathjaxSegment)) as [->|]; [|done].
      by exists segment.
    + unfold handleRmdOutputRequest in Hthrow. by rewrite Hfind in Hthrow.
  - intros (segment & Hpath & Hne & Hnone & Hex).
    rewrite (handleRmdOutputRequest_cases request segment kMathjaxSegment
               Hpath Hne Hnone), Hex.
    by eexists.
Qed.

(** X14. Every path that begins with the letters [mathjax] and goes on is
    taken for a MathJax resource, whatever its eighth character is: the
    resource is what follows that character, looked up in the MathJax
    directory and served cacheable.  A folder of the document whose name
    merely starts with [mathjax] is therefore not served from the document's
    directory. *)
Theorem mathjax_prefix_takes_any_eighth_character request segment a tail :
  pathAfterPrefix request kRmdOutputLocation
    = segment +:+ "/" +:+ kMathjaxSegment +:+ String a tail →
  segment ≠ EmptyString →
  no_slash_from 1 segment →
  exists_ (resolveAliasedPath (urlDecode segment)) = true →
  handleRmdOutputRequest request
    = Ok [setCacheableFile (complete mathJaxDirectory tail)].
Proof.
  intros Hpath Hne Hnone Hex.
  by rewrite (handleRmdOutputRequest_cases request segment
                (kMathjaxSegment +:+ String a tail) Hpath Hne Hnone), Hex.
Qed.

End MoreResourceServerFacts.

(** ** Source type detection and the build tab *)

Module SourceTypeFacts.
Import SourceType.

Lemma imatch_here_app m post test :
  same_ignoring_case m test = true → imatch_here (m +:+ post) test = true.
Proof.
  revert test. induction m as [|a m IH]; intros [|b test] Hm;
    try discriminate Hm; [by destruct post|].
  cbn in Hm. apply andb_true_iff in Hm as [Hab Hrest].
  rewrite append_cons. cbn. by rewrite Hab, IH.
Qed.

Lemma imatch_anywhere_here input test :
  imatch_here input test = true → imatch_anywhere input test = true.
Proof.
  intros Hh. destruct input; cbn [imatch_anywhere]; by rewrite Hh.
Qed.

Lemma imatch_anywhere_app pre input test :
  imatch_anywhere input test = true →
  imatch_anywhere (pre +:+ input) test = true.
Proof.
  intros Hi. induction pre as [|a pre IH]; [done|].
  rewrite append_cons. cbn [imatch_anywhere]. rewrite IH. apply orb_true_r.
Qed.

Section DetectFacts.
Context `{Platform}.

(** X15. A document opts out of the R Markdown type by the comment
    [<!-- rmarkdown v1 -->] anywhere in its contents and in any letter case:
    for such a document the detected type is empty, whatever its path, its
    extension and the [rstudio.markdownToHTML] option are. *)
Theorem v1_marker_opts_out_in_any_case isNull docPath pre m post :
  same_ignoring_case m kRmarkdownV1 = true →
  onDetectRmdSourceType isNull
    (mkSourceDocument docPath (pre +:+ m +:+ post)) = EmptyString.
Proof.
  intros Hm. unfold onDetectRmdSourceType. cbn [path contents].
  destruct (negb (bool_decide (docPath = EmptyString))); [|done].
  assert (icontains (pre +:+ m +:+ post) kRmarkdownV1 = true) as ->.
  { unfold icontains, kRmarkdownV1.
    apply imatch_anywhere_app, imatch_anywhere_here.
    by apply imatch_here_app. }
  cbn. by rewrite andb_false_r.
Qed.

End DetectFacts.

End SourceTypeFacts.

Module BuildTabFacts.
Import BuildTab.

Section OnSessionInitFacts.
Variables NONE PACKAGE MAKEFILE : string.
Variables BuildState BuildRestartContext : Type.

(** X17. After the session has been initialised the commands that are left
    go by the build type, when the three type constants differ: the package
    check stays only for a package; rebuild and clean stay only for a
    makefile; build-all and the activation of the tab go exactly when there
    are no build tools, which is exactly when the tab is suppressed. *)
Theorem commands_left_by_build_type
    (sessionInfo : SessionInfo BuildState BuildRestartContext) :
  NONE ≠ PACKAGE →
  NONE ≠ MAKEFILE →
  let type := getBuildToolsType sessionInfo in
  (removed NONE PACKAGE MAKEFILE checkPackage sessionInfo ↔ type ≠ PACKAGE) ∧
  (removed NONE PACKAGE MAKEFILE rebuildAll sessionInfo ↔ type ≠ MAKEFILE) ∧
  (removed NONE PACKAGE MAKEFILE cleanAll sessionInfo ↔ type ≠ MAKEFILE) ∧
  (removed NONE PACKAGE MAKEFILE buildAll sessionInfo ↔ type = NONE) ∧
  (removed NONE PACKAGE MAKEFILE activateBuild sessionInfo ↔ type = NONE) ∧
  (isSuppressed NONE sessionInfo = true ↔
   removed NONE PACKAGE MAKEFILE buildAll sessionInfo).
Proof.
  intros Hnp Hnm type. unfold removed, onSessionInit, isSuppressed.
  fold type. cbn [fst].
  repeat case_bool_decide; cbn [negb app];
    try (exfalso; congruence);
    split_and!; split; intros Hx; try done; try congruence;
    try (by repeat (apply elem_of_cons in Hx as [Hx|Hx]; [done|]);
            apply elem_of_nil in Hx);
    try (repeat first [by apply list_elem_of_here | apply list_elem_of_further]).
Qed.

End OnSessionInitFacts.

End BuildTabFacts.

(** ** The further properties at concrete inputs *)

Module MoreExamples.
Import Demo Inputs.

Lemma after_request_reachable : reachable (H := unix) after_request.
Proof.
  apply rtc_once.
  apply (step_renderRmd _ _ render_request Success (Some (Jbool true))).
  vm_compute. reflexivity.
Qed.

Lemma newline_free (l : string) :
  StdString.find l "010"%char 0 = None → no_newline l.
Proof. intros Hfind i. apply (proj1 (find_None l "010"%char 0) Hfind). lia. Qed.

(** X1 on the demo platform, after the render request. *)
Lemma one_render_at_a_time_witness :
  running_in_slot (H := unix) after_request ∧
  ∀ p q rp rq,
    objects after_request !! p = Some rp → isRunning_ rp = true →
    objects after_request !! q = Some rq → isRunning_ rq = true →
    p = q.
Proof.
  apply (one_render_at_a_time (H := unix) after_request).
  exact after_request_reachable.
Defined.

(** X2 on the demo platform, after the render request. *)
Lemma calls_always_return_witness :
  ∃ continue s',
    deliver (H := unix) 0 (cb_onExit 1) after_request
      = Some (Ok (continue, s')).
Proof.
  destruct (calls_always_return (H := unix) after_request
              after_request_reachable) as (Hcb & _ & _).
  eapply Hcb. vm_compute. reflexivity.
Defined.

(** X3 on the demo platform: the job from the request to the output. *)
Lemma job_fields_stable_witness :
  ∃ r', objects after_output !! 0 = Some r' ∧
        job_keeps (H := unix) (this (doc_job unix "/home/u/doc.Rmd")) r'.
Proof.
  apply (job_fields_stable (H := unix) after_request after_output 0).
  - apply rtc_once.
    apply (step_callback _ _ 0 (cb_onStdout output_with_marker) true).
    vm_compute. reflexivity.
  - vm_compute. reflexivity.
Defined.

(** X4 on the platform that refuses the launch. *)
Lemma refused_launch_goes_unreported_witness :
  ∃ s',
    renderRmd (H := launch_refused) render_request initial_session
      = Ok (Success, Some (Jbool true), s') ∧
    event_type <$> eventQueue s' = [kRmdRenderStarted] ∧
    processes s' = [] ∧
    orphaned 0 s'.
Proof.
  destruct (refused_launch_goes_unreported (H := launch_refused)
              render_request initial_session "/home/u/doc.Rmd" 3%Z "UTF-8")
    as (s' & Hrun & Hevents & Hprocs & Horph).
  - reflexivity.
  - reflexivity.
  - intros pr Hin. by apply elem_of_nil in Hin.
  - reflexivity.
  - reflexivity.
  - exists s'. split; [exact Hrun|]. rewrite Hevents, Hprocs.
    split; [reflexivity|]. split; [reflexivity|]. exact Horph.
Defined.

Lemma stuck_session_orphaned : orphaned (H := launch_refused) 0 stuck_session.
Proof.
  split_and!.
  - vm_compute. reflexivity.
  - eexists. split; vm_compute; reflexivity.
  - intros pr Hin. vm_compute in Hin. by apply elem_of_nil in Hin.
Qed.

(** X5 on the platform that refuses the launch: the next request. *)
Lemma orphaned_job_blocks_every_start_witness :
  renderRmd (H := launch_refused) render_request stuck_session
  = Ok (Success, Some (Jbool false), stuck_session).
Proof.
  destruct (orphaned_job_blocks_every_start (H := launch_refused) 0
              stuck_session stuck_session stuck_session_orphaned
              (rtc_refl _ _)) as [_ Hrefused].
  apply (Hrefused render_request "/home/u/doc.Rmd" 3%Z "UTF-8").
  reflexivity.
Defined.

(** X6 on the demo platform, with a job running. *)
Lemma termination_is_advisory_witness :
  ∃ s',
    terminateRenderRmd (H := unix) (busy_session unix "/home/u/doc.Rmd")
      = Ok (Success, s') ∧
    isRenderRunning s' = true ∧
    eventQueue s' = [].
Proof.
  destruct (termination_is_advisory (H := unix)
              (busy_session unix "/home/u/doc.Rmd"))
    as (s' & Hrun & Hstill & Hevents & _).
  - reflexivity.
  - exists s'. split; [exact Hrun|]. split; [exact Hstill|]. exact Hevents.
Defined.

(** X7 on the demo platform: one chunk from each stream. *)
Lemma output_is_buffered_in_arrival_order_witness :
  ∃ s',
    deliver_chunks (H := unix) 0 two_chunks after_request = Some (Ok s') ∧
    pAllOutput (H := unix) <$> processes s' !! 0
      = Some ("processing file: doc.Rmd" +:+ newline +:+
              "Output created: doc.html" +:+ newline).
Proof.
  destruct (output_is_buffered_in_arrival_order (H := unix) two_chunks 0
              after_request
              (render_process (H := unix) "UTF-8"
                 (mkCtx (H := unix) 0
                    (RenderRmd_new (H := unix) "/home/u/doc.Rmd" 3%Z) [] [])))
    as (s' & Hrun & Hprocs & _).
  - vm_compute. reflexivity.
  - eexists. vm_compute. reflexivity.
  - exists s'. split; [exact Hrun|]. rewrite Hprocs.
    vm_compute. reflexivity.
Defined.

(** X8 on the demo platform: a progress line, the marker line, more output. *)
Lemma first_marker_line_wins_witness :
  ∃ c',
    onRenderCompleted (H := unix) 0 "UTF-8"
      (unlines ["processing file: doc.Rmd"] +:+ "Output created: doc.html"
       +:+ newline +:+ "Output created: other.html")
      (doc_job unix "/home/u/doc.Rmd") = Ok ((), c') ∧
    outputFile_ (this c') = "/home/u/doc.html".
Proof.
  destruct (first_marker_line_wins (H := unix) ["processing file: doc.Rmd"]
              "Output created: doc.html" "Output created: other.html"
              (doc_job unix "/home/u/doc.Rmd") 0 "UTF-8") as [Hfirst _].
  - eexists. reflexivity.
  - constructor; [|constructor].
    split; [by apply newline_free|reflexivity].
  - by apply newline_free.
  - reflexivity.
  - exact Hfirst.
Defined.

(** X9: the marker line of a CR-LF output. *)
Lemma trailing_whitespace_is_dropped_witness :
  named_file (H := unix) "/home/u/doc.Rmd"
    ("Output created: doc.html" +:+ carriage_return)
  = named_file (H := unix) "/home/u/doc.Rmd" "Output created: doc.html".
Proof.
  apply (trailing_whitespace_is_dropped (H := unix)); reflexivity.
Defined.

(** X11 on the demo platform: exit status 0 and the named file on disk. *)
Lemma succeeded_means_hasOutput_witness :
  ∃ c' resultJson,
    onRenderCompleted (H := unix) 0 "UTF-8" output_with_marker
      (doc_job unix "/home/u/doc.Rmd") = Ok ((), c') ∧
    last (clientEvents c') = Some (completed_event resultJson) ∧
    hasOutput (this c') = true.
Proof.
  destruct (succeeded_means_hasOutput (H := unix)
              (doc_job unix "/home/u/doc.Rmd") 0 "UTF-8" output_with_marker)
    as (c' & resultJson & Hrun & Hlast & _ & Hhas & _).
  - eexists. reflexivity.
  - intros formatName targetFile sourceLine resultJson. reflexivity.
  - exists c', resultJson. split; [exact Hrun|]. split; [exact Hlast|].
    rewrite Hhas.
    destruct (onRenderCompleted (H := unix) 0 "UTF-8" output_with_marker
                (doc_job unix "/home/u/doc.Rmd")) as [[[] c0]|] eqn:Hc0;
      [|discriminate Hrun].
    injection Hrun as <-. vm_compute in Hc0. injection Hc0 as <-.
    reflexivity.
Defined.

(** X12 on the demo platform: a page with math and no loader line. *)
Lemma documents_without_loader_pass_unchanged_witness :
  do_filter (H := unix) math_only_page "y\]</p>" MathjaxFilter_new
  = ("<p>\(x\)</p><p>\[y\]</p>", mkMathjaxFilter true).
Proof.
  apply (documents_without_loader_pass_unchanged (H := unix) math_only_page
           "y\]</p>" MathjaxFilter_new).
  repeat constructor.
Defined.

(** X14 on the demo platform: a folder of the document named
    [mathjax-local]. *)
Lemma mathjax_prefix_takes_any_eighth_character_witness :
  handleRmdOutputRequest (H := unix)
    "/rmd_output/%252Fhome%252Fu%252Fdoc.html/mathjax-local/x.js"
  = Ok [setCacheableFile (H := unix) "/usr/lib/R/rmarkdown/rmd/h/m/local/x.js"].
Proof.
  apply (mathjax_prefix_takes_any_eighth_character (H := unix)
           "/rmd_output/%252Fhome%252Fu%252Fdoc.html/mathjax-local/x.js"
           "%2Fhome%2Fu%2Fdoc.html" "-"%char "local/x.js").
  - reflexivity.
  - discriminate.
  - intros i Hi.
    exact (proj1 (find_None "%2Fhome%2Fu%2Fdoc.html" "/"%char 1) eq_refl i Hi).
  - reflexivity.
Defined.

(** X15: the opt-out comment written in capitals. *)
Lemma v1_marker_opts_out_in_any_case_witness :
  SourceType.onDetectRmdSourceType (H := unix) true v1_document = EmptyString.
Proof.
  apply (SourceTypeFacts.v1_marker_opts_out_in_any_case (H := unix) true
           "~/notes.Rmd" ("# Notes" +:+ newline) "<!-- RMarkdown V1 -->"
           newline).
  reflexivity.
Defined.

(** X16 on the demo platform, from the first request. *)
Lemma render_from_request_to_completion_events_witness :
  ∃ s1 s2 s3 startedEvent resultJson,
    renderRmd (H := unix) render_request initial_session
      = Ok (Success, Some (Jbool true), s1) ∧
    deliver_chunks 0 two_chunks s1 = Some (Ok s2) ∧
    deliver 0 (cb_onExit 0) s2 = Some (Ok (true, s3)) ∧
    event_type startedEvent = kRmdRenderStarted ∧
    eventQueue s3 =
      [startedEvent] ++ (chunk_event (H := unix) <$> two_chunks) ++
      [completed_event resultJson] ∧
    resultJson !! "succeeded" = Some (Jbool true) ∧
    processes s3 = [] ∧
    isRenderRunning s3 = false.
Proof.
  apply (render_from_request_to_completion_events (H := unix) render_request
           initial_session "/home/u/doc.Rmd" 3%Z "UTF-8" two_chunks 0).
  - reflexivity.
  - reflexivity.
  - reflexivity.
  - intros exe args. reflexivity.
  - intros formatName targetFile sourceLine resultJson. reflexivity.
Defined.

(** X17 with the type constants of the client: a project without build
    tools. *)
Lemma commands_left_by_build_type_witness :
  BuildTab.removed "None" "Package" "Makefile" BuildTab.buildAll no_build_tools ∧
  BuildTab.removed "None" "Package" "Makefile" BuildTab.checkPackage
    no_build_tools ∧
  BuildTab.isSuppressed "None" no_build_tools = true ∧
  ¬ BuildTab.removed "None" "Package" "Makefile" BuildTab.checkPackage
      package_project.
Proof.
  destruct (BuildTabFacts.commands_left_by_build_type "None" "Package"
              "Makefile" unit unit no_build_tools)
    as (Hcheck & _ & _ & Hbuild & _ & Hsuppressed); [discriminate..|].
  destruct (BuildTabFacts.commands_left_by_build_type "None" "Package"
              "Makefile" unit unit package_project)
    as (Hcheck' & _); [discriminate..|].
  split_and!.
  - by apply Hbuild.
  - apply Hcheck. discriminate.
  - apply Hsuppressed. by apply Hbuild.
  - intros Hgone. by apply Hcheck' in Hgone.
Defined.

End MoreExamples.
